(** * FreeKassaClient: a shallow embedding of [freekassa-client/client.py]

    The client is glue code: it formats a few fields, hashes them and
    forwards a payload.  The embedding follows the Python text line by line.

    Conventions of the model
    - a Python [int] is a [Z];
    - a [dict] is an association list in insertion order (Python keeps that
      order, and [urlencode] and the JSON body expose it);
    - a method that raises returns [Raise e]; the API methods also thread
      the list of the calls of [requests.post] made so far;
    - the library functions the client calls ([hashlib], [hmac],
      [urllib.parse], [decimal], [requests]) are written out from their
      documented behaviour, and checked on published vectors below;
    - the section [Client] holds the methods on well-formed text, a [str]
      being a Rocq [string] of its UTF-8 bytes, with finite amounts
      formatted as the default decimal context does;
    - the module [Full] holds the methods on every input Python can pass: a
      [str] is a list of code points, lone surrogates included, an amount
      is any [Decimal], special values included, and the rounding mode of
      the current decimal context is an argument.  On well-formed text,
      finite amounts and the default rounding the two agree. *)

From Stdlib Require Import ZArith List String Ascii Bool Lia.
From Stdlib Require Import Sorted Permutation.
Import ListNotations.

Local Open Scope string_scope.
Local Open Scope Z_scope.

(** ** Python built-ins used by the client *)

Module Py.

(** [bytes]: the result of [str.encode]. *)
Definition bytes := list Z.

Definition ord (a : ascii) : Z := Z.of_N (N_of_ascii a).

Definition chr (z : Z) : ascii := ascii_of_N (Z.to_N z).

(** [s.encode('utf-8')] (also the default of [s.encode()]) on well-formed
    text, which is held as its bytes; [Full.encode_utf8] is the encoding of
    any [str]. *)
Definition encode (s : string) : bytes := map ord (list_ascii_of_string s).

(** [str.lower], on the ASCII letters.  Python also folds the letters
    outside ASCII; none of them folds to a hexadecimal digit, so a
    comparison with a digest comes out the same. *)
Definition lower_ascii (a : ascii) : ascii :=
  if (65 <=? ord a) && (ord a <=? 90) then chr (ord a + 32) else a.

Fixpoint lower (s : string) : string :=
  match s with
  | EmptyString => EmptyString
  | String a r => String (lower_ascii a) (lower r)
  end.

(** [str.upper] on the ASCII letters; the properties apply it to digests,
    which hold nothing else. *)
Definition upper_ascii (a : ascii) : ascii :=
  if (97 <=? ord a) && (ord a <=? 122) then chr (ord a - 32) else a.

Fixpoint upper (s : string) : string :=
  match s with
  | EmptyString => EmptyString
  | String a r => String (upper_ascii a) (upper r)
  end.

(** [sep.join(l)]. *)
Fixpoint join (sep : string) (l : list string) : string :=
  match l with
  | [] => ""
  | [x] => x
  | x :: r => x ++ sep ++ join sep r
  end.

(** The decimal digit [d] (0..9) as a character. *)
Definition digit (d : Z) : ascii := chr (48 + d).

(** [str(n)] for a non-negative [int]: most significant digit first.  The
    fuel is the number of binary digits, which bounds the decimal ones. *)
Fixpoint digits_fuel (fuel : nat) (n : Z) (acc : string) : string :=
  match fuel with
  | O => acc
  | S f =>
      let acc' := String (digit (n mod 10)) acc in
      if n <? 10 then acc' else digits_fuel f (n / 10) acc'
  end.

Definition str_of_nat_Z (n : Z) : string :=
  digits_fuel (S (Z.to_nat (Z.log2 n))) n "".

(** [str(n)] for an [int]. *)
Definition str_of_int (n : Z) : string :=
  if n <? 0 then "-" ++ str_of_nat_Z (- n) else str_of_nat_Z n.

(** The values the client stores in its payloads. *)
Inductive value : Type :=
| VInt (n : Z)
| VStr (s : string).

(** [str(v)]. *)
Definition str (v : value) : string :=
  match v with
  | VInt n => str_of_int n
  | VStr s => s
  end.

(** A [dict] with [str] keys, in insertion order. *)
Definition dict := list (string * value).

(** [d.keys()]. *)
Definition keys (d : dict) : list string := map fst d.

(** [d[k]]; [None] stands for [KeyError]. *)
Fixpoint getitem (d : dict) (k : string) : option value :=
  match d with
  | [] => None
  | (k', v) :: r => if String.eqb k k' then Some v else getitem r k
  end.

(** [d[k] = v]: replaces the value of an existing key in place, appends a
    new key at the end. *)
Fixpoint setitem (d : dict) (k : string) (v : value) : dict :=
  match d with
  | [] => [(k, v)]
  | (k', v') :: r =>
      if String.eqb k k' then (k', v) :: r else (k', v') :: setitem r k v
  end.

(** [sorted(l)] on strings: ascending in the code-point order (which is the
    byte order of UTF-8), stable. *)
Fixpoint insert_sorted (x : string) (l : list string) : list string :=
  match l with
  | [] => [x]
  | y :: r => if String.leb x y then x :: l else y :: insert_sorted x r
  end.

Fixpoint sorted (l : list string) : list string :=
  match l with
  | [] => []
  | x :: r => insert_sorted x (sorted r)
  end.

(** Truth value of an optional [str] argument: [None] and [''] are falsy. *)
Definition truthy (o : option string) : bool :=
  match o with
  | None => false
  | Some s => negb (String.eqb s "")
  end.

End Py.


(** ** [hashlib] and [hmac]: the digests the client calls

    These are the standard algorithms (RFC 1321, FIPS 180-4, RFC 2104) on
    32-bit words held in [Z], every addition reduced modulo [2^32]. *)

Module hashlib.

Import Py.
Local Open Scope list_scope.

Definition w32 (x : Z) : Z := x mod 4294967296.

Definition add32 (x y : Z) : Z := w32 (x + y).

Definition not32 (x : Z) : Z := Z.lxor x 4294967295.

Definition rotl32 (x n : Z) : Z :=
  Z.lor (w32 (Z.shiftl x n)) (Z.shiftr x (32 - n)).

Definition rotr32 (x n : Z) : Z :=
  Z.lor (Z.shiftr x n) (w32 (Z.shiftl x (32 - n))).

(** The [n] low bytes of [x], least significant first. *)
Fixpoint le_bytes (n : nat) (x : Z) : bytes :=
  match n with
  | O => []
  | S k => x mod 256 :: le_bytes k (x / 256)
  end.

Definition be_bytes (n : nat) (x : Z) : bytes := rev (le_bytes n x).

Fixpoint le_word (l : bytes) : Z :=
  match l with
  | [] => 0
  | b :: r => b + 256 * le_word r
  end.

Definition be_word (l : bytes) : Z := le_word (rev l).

(** Cuts a list into pieces of [n] elements; [k] bounds the number of
    pieces. *)
Fixpoint chunks {A} (k n : nat) (l : list A) : list (list A) :=
  match k with
  | O => []
  | S k' =>
      match l with
      | [] => []
      | _ => firstn n l :: chunks k' n (skipn n l)
      end
  end.

Definition split_every {A} (n : nat) (l : list A) : list (list A) :=
  chunks (List.length l) n l.

(** Message padding shared by MD5 and SHA-256: a [0x80] byte, zeros up to
    56 modulo 64, then the bit length on 8 bytes written by [len64]. *)
Definition pad (len64 : Z -> bytes) (m : bytes) : bytes :=
  let n := Z.of_nat (List.length m) in
  let z := (55 - n) mod 64 in
  m ++ [128] ++ repeat 0 (Z.to_nat z) ++ len64 (8 * n).

Definition md5_K : list Z :=
  [ 0xd76aa478; 0xe8c7b756; 0x242070db; 0xc1bdceee;
    0xf57c0faf; 0x4787c62a; 0xa8304613; 0xfd469501;
    0x698098d8; 0x8b44f7af; 0xffff5bb1; 0x895cd7be;
    0x6b901122; 0xfd987193; 0xa679438e; 0x49b40821;
    0xf61e2562; 0xc040b340; 0x265e5a51; 0xe9b6c7aa;
    0xd62f105d; 0x02441453; 0xd8a1e681; 0xe7d3fbc8;
    0x21e1cde6; 0xc33707d6; 0xf4d50d87; 0x455a14ed;
    0xa9e3e905; 0xfcefa3f8; 0x676f02d9; 0x8d2a4c8a;
    0xfffa3942; 0x8771f681; 0x6d9d6122; 0xfde5380c;
    0xa4beea44; 0x4bdecfa9; 0xf6bb4b60; 0xbebfbc70;
    0x289b7ec6; 0xeaa127fa; 0xd4ef3085; 0x04881d05;
    0xd9d4d039; 0xe6db99e5; 0x1fa27cf8; 0xc4ac5665;
    0xf4292244; 0x432aff97; 0xab9423a7; 0xfc93a039;
    0x655b59c3; 0x8f0ccc92; 0xffeff47d; 0x85845dd1;
    0x6fa87e4f; 0xfe2ce6e0; 0xa3014314; 0x4e0811a1;
    0xf7537e82; 0xbd3af235; 0x2ad7d2bb; 0xeb86d391 ].

Definition md5_S : list Z :=
  [ 7; 12; 17; 22; 7; 12; 17; 22; 7; 12; 17; 22; 7; 12; 17; 22;
    5; 9; 14; 20; 5; 9; 14; 20; 5; 9; 14; 20; 5; 9; 14; 20;
    4; 11; 16; 23; 4; 11; 16; 23; 4; 11; 16; 23; 4; 11; 16; 23;
    6; 10; 15; 21; 6; 10; 15; 21; 6; 10; 15; 21; 6; 10; 15; 21 ].

Definition md5_state : Type := (Z * Z * Z * Z)%type.

Definition md5_round (M : list Z) (st : md5_state) (i : nat) : md5_state :=
  let '(A, B, C, D) := st in
  let iz := Z.of_nat i in
  let '(F, g) :=
    if iz <? 16 then (Z.lor (Z.land B C) (Z.land (not32 B) D), iz)
    else if iz <? 32 then
      (Z.lor (Z.land D B) (Z.land (not32 D) C), (5 * iz + 1) mod 16)
    else if iz <? 48 then (Z.lxor B (Z.lxor C D), (3 * iz + 5) mod 16)
    else (Z.lxor C (Z.lor B (not32 D)), (7 * iz) mod 16) in
  let F' := add32 (add32 (add32 F A) (nth i md5_K 0)) (nth (Z.to_nat g) M 0) in
  (D, add32 B (rotl32 F' (nth i md5_S 0)), B, C).

Definition md5_block (st : md5_state) (blk : bytes) : md5_state :=
  let M := map le_word (split_every 4 blk) in
  let '(a0, b0, c0, d0) := st in
  let '(A, B, C, D) := fold_left (md5_round M) (seq 0 64) st in
  (add32 a0 A, add32 b0 B, add32 c0 C, add32 d0 D).

Definition md5_init : md5_state :=
  (0x67452301, 0xefcdab89, 0x98badcfe, 0x10325476).

(** [hashlib.md5(data).digest()]. *)
Definition md5 (data : bytes) : bytes :=
  let '(a, b, c, d) :=
    fold_left md5_block (split_every 64 (pad (le_bytes 8) data)) md5_init in
  le_bytes 4 a ++ le_bytes 4 b ++ le_bytes 4 c ++ le_bytes 4 d.

(** The first 64 primes. *)
Definition primes64 : list Z :=
  [ 2; 3; 5; 7; 11; 13; 17; 19; 23; 29; 31; 37; 41; 43; 47; 53;
    59; 61; 67; 71; 73; 79; 83; 89; 97; 101; 103; 107; 109; 113; 127; 131;
    137; 139; 149; 151; 157; 163; 167; 173; 179; 181; 191; 193; 197; 199;
    211; 223; 227; 229; 233; 239; 241; 251; 257; 263; 269; 271; 277; 281;
    283; 293; 307; 311 ].

(** The integer cube root of [n] below [2^bits], one bit at a time. *)
Fixpoint cube_root (bits : nat) (n r : Z) : Z :=
  match bits with
  | O => r
  | S b =>
      let r' := r + 2 ^ Z.of_nat b in
      cube_root b n (if r' * r' * r' <=? n then r' else r)
  end.

(** The round constants: the first 32 bits of the fractional parts of the
    cube roots of the first 64 primes. *)
Definition sha256_K : list Z :=
  Eval vm_compute in
    map (fun p => w32 (cube_root 36 (p * 2 ^ 96) 0)) primes64.

(** The initial state: the first 32 bits of the fractional parts of the
    square roots of the first 8 primes. *)
Definition sha256_init : list Z :=
  Eval vm_compute in
    map (fun p => w32 (Z.sqrt (p * 2 ^ 64))) (firstn 8 primes64).

(** Message schedule: extends the 16 words of a block to 64. *)
Definition sha256_extend (W : list Z) (i : nat) : list Z :=
  let w k := nth (i - k) W 0 in
  let s0 := Z.lxor (rotr32 (w 15%nat) 7)
              (Z.lxor (rotr32 (w 15%nat) 18) (Z.shiftr (w 15%nat) 3)) in
  let s1 := Z.lxor (rotr32 (w 2%nat) 17)
              (Z.lxor (rotr32 (w 2%nat) 19) (Z.shiftr (w 2%nat) 10)) in
  W ++ [add32 (add32 (add32 (w 16%nat) s0) (w 7%nat)) s1].

Definition sha256_round (W : list Z) (st : list Z) (i : nat) : list Z :=
  match st with
  | [a; b; c; d; e; f; g; h] =>
      let S1 := Z.lxor (rotr32 e 6) (Z.lxor (rotr32 e 11) (rotr32 e 25)) in
      let ch := Z.lxor (Z.land e f) (Z.land (not32 e) g) in
      let t1 :=
        add32 (add32 (add32 (add32 h S1) ch) (nth i sha256_K 0)) (nth i W 0) in
      let S0 := Z.lxor (rotr32 a 2) (Z.lxor (rotr32 a 13) (rotr32 a 22)) in
      let maj := Z.lxor (Z.land a b) (Z.lxor (Z.land a c) (Z.land b c)) in
      let t2 := add32 S0 maj in
      [add32 t1 t2; a; b; c; add32 d t1; e; f; g]
  | _ => st
  end.

Definition sha256_block (st : list Z) (blk : bytes) : list Z :=
  let W16 := map be_word (split_every 4 blk) in
  let W := fold_left sha256_extend (seq 16 48) W16 in
  let st' := fold_left (sha256_round W) (seq 0 64) st in
  map (fun p => add32 (fst p) (snd p)) (combine st st').

(** [hashlib.sha256(data).digest()]. *)
Definition sha256 (data : bytes) : bytes :=
  flat_map (be_bytes 4)
    (fold_left sha256_block (split_every 64 (pad (be_bytes 8) data))
       sha256_init).

Definition hex_digit (d : Z) : ascii :=
  if d <? 10 then chr (48 + d) else chr (87 + d).

(** [.hexdigest()]: two lowercase hexadecimal digits per byte. *)
Fixpoint hexdigest (d : bytes) : string :=
  match d with
  | [] => ""
  | b :: r => String (hex_digit (b / 16)) (String (hex_digit (b mod 16)) (hexdigest r))
  end.

End hashlib.

Module hmac.

Import Py hashlib.
Local Open Scope list_scope.

Definition xor_pad (c : Z) (k : bytes) : bytes := map (Z.lxor c) k.

(** [hmac.new(key, msg, 'sha256').digest()], block size 64. *)
Definition hmac_sha256 (key msg : bytes) : bytes :=
  let k0 := if 64 <? Z.of_nat (List.length key) then sha256 key else key in
  let k := k0 ++ repeat 0 (64 - List.length k0) in
  sha256 (xor_pad 0x5c k ++ sha256 (xor_pad 0x36 k ++ msg)).

End hmac.

(** ** [decimal]: the amounts *)

Module decimal.

Import Py.

(** A finite [Decimal]: [(-1)^sign * coefficient * 10^exponent]. *)
Record Decimal : Type := mkDecimal {
  sign : bool;
  coefficient : N;
  exponent : Z
}.

(** The coefficient of [d] once rescaled to the exponent [-2], as the format
    code [.2f] does under the default context, whose rounding is
    [ROUND_HALF_EVEN]: trailing zeros are added when [d] has fewer than two
    fraction digits; otherwise the digits beyond the second are dropped and
    the kept part is incremented when the dropped part is above one half of
    a unit, or exactly one half with an odd kept part. *)
Definition rescale2 (d : Decimal) : Z :=
  let c := Z.of_N (coefficient d) in
  let e := exponent d in
  if -2 <=? e then c * 10 ^ (e + 2)
  else
    let p := 10 ^ (-2 - e) in
    let q := c / p in
    let r := c mod p in
    if (p <? 2 * r) || ((2 * r =? p) && Z.odd q) then q + 1 else q.

(** [f'{d:.2f}'] for a finite [d] under the default context: sign, integer
    digits, a point, two fraction digits.  [Full.format_2f_in] is the
    formatting of any [Decimal] under any rounding mode. *)
Definition format_2f (d : Decimal) : string :=
  let q := rescale2 d in
  (if sign d then "-" else "") ++
  str_of_nat_Z (q / 100) ++ "." ++
  String (digit (q / 10 mod 10)) (String (digit (q mod 10)) "").

End decimal.

(** ** [urllib.parse]: the query string *)

Module urllib.

Import Py.

(** The characters [quote] never escapes: letters, digits and [_.-~]. *)
Definition always_safe (a : ascii) : bool :=
  let c := ord a in
  ((65 <=? c) && (c <=? 90)) || ((97 <=? c) && (c <=? 122)) ||
  ((48 <=? c) && (c <=? 57)) ||
  (c =? 95) || (c =? 46) || (c =? 45) || (c =? 126).

Fixpoint occurs (a : ascii) (s : string) : bool :=
  match s with
  | EmptyString => false
  | String b r => Ascii.eqb a b || occurs a r
  end.

Definition HEX_digit (d : Z) : ascii :=
  if d <? 10 then chr (48 + d) else chr (55 + d).

(** ['%{:02X}'.format(b)]. *)
Definition percent (a : ascii) : string :=
  String "%" (String (HEX_digit (ord a / 16)) (String (HEX_digit (ord a mod 16)) "")).

(** [quote(s, safe)]: byte by byte over the UTF-8 encoding. *)
Fixpoint quote (safe : string) (s : string) : string :=
  match s with
  | EmptyString => EmptyString
  | String a r =>
      if always_safe a || occurs a safe then String a (quote safe r)
      else percent a ++ quote safe r
  end.

(** [s.replace(' ', '+')]. *)
Fixpoint replace_space (s : string) : string :=
  match s with
  | EmptyString => EmptyString
  | String a r =>
      String (if Ascii.eqb a " " then "+"%char else a) (replace_space r)
  end.

(** [quote_plus(s)]: [quote] with spaces turned into plus signs. *)
Definition quote_plus (s : string) : string :=
  if occurs " " s then replace_space (quote " " s) else quote "" s.

(** [urlencode(d)] for a [dict]: [key=value] pairs in the order of the
    [dict], both sides through [quote_plus], values through [str] first. *)
Definition urlencode (d : dict) : string :=
  join "&" (map (fun kv => quote_plus (fst kv) ++ "=" ++ quote_plus (str (snd kv))) d).

End urllib.

(** ** Exceptions, and the effect of a method call *)

Inductive exn : Type :=
| RuntimeError (msg : string)
| KeyError (key : string)
| HTTPError (status : Z)
| JSONDecodeError
| RequestException (reason : string)
| UnicodeEncodeError.

Inductive result (A : Type) : Type :=
| Ok (a : A)
| Raise (e : exn).

Arguments Ok {A} a.
Arguments Raise {A} e.

Definition bind_result {A B} (r : result A) (f : A -> result B) : result B :=
  match r with
  | Ok a => f a
  | Raise e => Raise e
  end.

(** [[f(x) for x in l]] where [f] may raise: stops at the first exception. *)
Fixpoint map_result {A B} (f : A -> result B) (l : list A) : result (list B) :=
  match l with
  | [] => Ok []
  | x :: r =>
      bind_result (f x) (fun y =>
      bind_result (map_result f r) (fun ys => Ok (y :: ys)))
  end.

(** ** [requests]: what goes to the network and what comes back *)

Module requests.

Import Py.

(** One call of [requests.post(url, json=..., timeout=...)]. *)
Record Request : Type := mkRequest {
  url : string;
  json : dict;
  timeout : Z
}.

Record Response : Type := mkResponse {
  status_code : Z;
  text : string
}.

(** The network as the client sees it: the calls of [requests.post] made so
    far, one entry per call (what the library then does on the wire, such
    as following a redirect, happens inside the call). *)
Definition Net : Type := list Request.

(** A computation that may send requests and may raise. *)
Definition IO (A : Type) : Type := Net -> result A * Net.

Definition ret {A} (a : A) : IO A := fun n => (Ok a, n).

Definition raise {A} (e : exn) : IO A := fun n => (Raise e, n).

Definition bind {A B} (m : IO A) (f : A -> IO B) : IO B :=
  fun n =>
    match m n with
    | (Ok a, n') => f a n'
    | (Raise e, n') => (Raise e, n')
    end.

Definition lift {A} (r : result A) : IO A := fun n => (r, n).

(** [r.raise_for_status()]: an [HTTPError] for a 4xx or 5xx status. *)
Definition raise_for_status (r : Response) : result unit :=
  if (400 <=? status_code r) && (status_code r <? 600)
  then Raise (HTTPError (status_code r))
  else Ok tt.

End requests.

Declare Scope io_scope.
Delimit Scope io_scope with io.
Notation "x <- m ;; k" := (requests.bind m (fun x => k))
  (at level 61, m at next level, right associativity) : io_scope.
Notation "m ;;; k" := (requests.bind m (fun _ => k))
  (at level 61, right associativity) : io_scope.

(** ** The client *)

Section Client.

Import Py decimal urllib requests.

(** The world outside the process.  [JSON] is the type of decoded bodies and
    [loads] the decoder behind [r.json()] ([None]: the body is not JSON).
    [transport] is the remote end: given the requests already sent and the
    next one, it answers with a response or fails (connection, timeout). *)
Variable JSON : Type.
Variable loads : string -> option JSON.
Variable transport : Net -> Request -> result Response.

(** [requests.post(url, json=payload, timeout=t)]. *)
Definition post (u : string) (payload : dict) (t : Z) : IO Response :=
  fun n =>
    let rq := mkRequest u payload t in
    (transport n rq, (n ++ [rq])%list).

(** [r.json()]. *)
Definition response_json (r : Response) : result JSON :=
  match loads (text r) with
  | Some j => Ok j
  | None => Raise JSONDecodeError
  end.

Record FreeKassaClient : Type := mkClient {
  _merchant_id : Z;
  _secret1 : string;
  _secret2 : string;
  _api_key : option string;
  _success_url : option string;
  _fail_url : option string;
  _notify_url : option string;
  _api_url : string;
  _ui_url : string;
  _nonce : Z
}.

(** [if arg: self.field = arg], on a field that holds [current]. *)
Definition assign_if_set (arg : option string) (current : string) : string :=
  match arg with
  | Some u => if truthy arg then u else current
  | None => current
  end.

(** [FreeKassaClient(...)].  An optional argument left out is [None]; for
    [nonce] that selects the default [1]. *)
Definition __init__
    (merchant_id : Z) (secret_word_1 secret_word_2 : string)
    (api_key success_url fail_url notify_url api_url ui_url : option string)
    (nonce : option Z) : FreeKassaClient :=
  mkClient merchant_id secret_word_1 secret_word_2 api_key
    success_url fail_url notify_url
    (assign_if_set api_url "https://api.fk.life/v1/")
    (assign_if_set ui_url "https://pay.fk.money/")
    (match nonce with Some n => n | None => 1 end).

Definition __md5hex (data : string) : string :=
  hashlib.hexdigest (hashlib.md5 (encode data)).

Definition __hmac_sha256_hex (message key : string) : string :=
  hashlib.hexdigest (hmac.hmac_sha256 (encode key) (encode message)).

Definition verify_notify (self : FreeKassaClient)
    (amount order_id sign : string) : bool :=
  let expected :=
    __md5hex (str_of_int (_merchant_id self) ++ ":" ++ amount ++ ":" ++
              _secret2 self ++ ":" ++ order_id) in
  String.eqb (lower expected) (lower sign).

Definition ui_create_order (self : FreeKassaClient) (amount : Decimal)
    (currency payment_id : string) (payment_method_id : Z) : string :=
  let amount_str := format_2f amount in
  let sign_str :=
    str_of_int (_merchant_id self) ++ ":" ++ amount_str ++ ":" ++
    _secret1 self ++ ":" ++ currency ++ ":" ++ payment_id in
  let signature := hashlib.hexdigest (hashlib.md5 (encode sign_str)) in
  let payload :=
    [ ("m", VInt (_merchant_id self));
      ("oa", VStr amount_str);
      ("currency", VStr currency);
      ("o", VStr payment_id);
      ("s", VStr signature);
      ("i", VInt payment_method_id) ] in
  _ui_url self ++ "?" ++ urlencode payload.

(** [keys = sorted(payload.keys())] and
    ['|'.join(str(payload[k]) for k in keys)]. *)
Definition signing_message (payload : dict) : result string :=
  let keys := sorted (keys payload) in
  bind_result
    (map_result
       (fun k =>
          match getitem payload k with
          | Some v => Ok (str v)
          | None => Raise (KeyError k)
          end)
       keys)
    (fun parts => Ok (join "|" parts)).

(** [if not self._api_key: raise RuntimeError('API key is not set')]; gives
    the key otherwise. *)
Definition checked_api_key (self : FreeKassaClient) : IO string :=
  match _api_key self with
  | Some k =>
      if truthy (_api_key self) then ret k
      else raise (RuntimeError "API key is not set")
  | None => raise (RuntimeError "API key is not set")
  end.

Definition api_create_order (self : FreeKassaClient) (nonce i : Z)
    (user_email user_ip payment_id : string) (amount : Decimal)
    (currency : string) : IO JSON :=
  (api_key <- checked_api_key self ;;
   let payload :=
     [ ("shopId", VInt (_merchant_id self));
       ("nonce", VInt nonce);
       ("amount", VStr (format_2f amount));
       ("currency", VStr currency);
       ("paymentId", VStr payment_id);
       ("ip", VStr user_ip);
       ("email", VStr user_email);
       ("i", VInt i) ] in
   message <- lift (signing_message payload) ;;
   let payload :=
     setitem payload "signature" (VStr (__hmac_sha256_hex message api_key)) in
   r <- post (_api_url self ++ "orders/create") payload 10 ;;
   lift (response_json r))%io.

Definition api_get_order (self : FreeKassaClient) (payment_id : string) : IO JSON :=
  (api_key <- checked_api_key self ;;
   let payload :=
     [ ("shopId", VInt (_merchant_id self));
       ("nonce", VInt (_nonce self));
       ("paymentId", VStr payment_id) ] in
   message <- lift (signing_message payload) ;;
   let payload :=
     setitem payload "signature" (VStr (__hmac_sha256_hex message api_key)) in
   r <- post (_api_url self ++ "orders") payload 10 ;;
   lift (raise_for_status r) ;;;
   lift (response_json r))%io.

(** The instance the module builds when it is loaded. *)
Definition client : FreeKassaClient :=
  __init__ 66058 "2aJ0hR?0Z-[=VJ6" "Hs)D3l&hb4(?xFf"
    (Some "962c879ce9be06f9d34a556872869220") None None None None None None.

End Client.

(** ** The methods on every [str] and [Decimal], under any decimal context

    The section above takes its [str] arguments as well-formed text, given
    by its UTF-8 bytes, and formats amounts as the default decimal context
    does.  Here a [str] is any sequence of code points, lone surrogates
    included, an amount is any [Decimal], special values included, and the
    rounding mode of the current decimal context is an input of the methods
    that format an amount. *)

Module Full.

Import Py decimal urllib requests.

(** A Python [str]: its code points.  The code points D800..DFFF are lone
    surrogates. *)
Definition ustr : Type := list Z.

Definition is_surrogate (c : Z) : bool := (55296 <=? c) && (c <=? 57343).

(** The UTF-8 bytes of one code point. *)
Definition utf8 (c : Z) : list Z :=
  if c <? 128 then [c]
  else if c <? 2048 then [192 + c / 64; 128 + c mod 64]
  else if c <? 65536 then
    [224 + c / 4096; 128 + (c / 64) mod 64; 128 + c mod 64]
  else
    [240 + c / 262144; 128 + (c / 4096) mod 64; 128 + (c / 64) mod 64;
     128 + c mod 64].

Fixpoint bytes_str (l : list Z) : string :=
  match l with
  | [] => EmptyString
  | b :: r => String (chr b) (bytes_str r)
  end.

(** [s.encode('utf-8')], with the default [errors='strict']: raises on a
    lone surrogate. *)
Fixpoint encode_utf8 (s : ustr) : result string :=
  match s with
  | [] => Ok EmptyString
  | c :: r =>
      if is_surrogate c then Raise UnicodeEncodeError
      else bind_result (encode_utf8 r) (fun t => Ok (bytes_str (utf8 c) ++ t))
  end.

(** The [str] made of the characters of an ASCII string. *)
Fixpoint ascii_str (s : string) : ustr :=
  match s with
  | EmptyString => []
  | String a r => ord a :: ascii_str r
  end.

(** [s == t] on two [str]. *)
Fixpoint ustr_eqb (s t : ustr) : bool :=
  match s, t with
  | [], [] => true
  | c :: s', d :: t' => (c =? d) && ustr_eqb s' t'
  | _, _ => false
  end.

(** The special values of [Decimal]; a NaN carries a payload, [0] when it
    has none. *)
Inductive special : Type :=
| Infinity
| qNaN (payload : N)
| sNaN (payload : N).

Inductive DecimalValue : Type :=
| Finite (d : Decimal)
| Special (negative : bool) (s : special).

(** The rounding modes of a decimal context. *)
Inductive rounding : Type :=
| ROUND_HALF_EVEN
| ROUND_HALF_UP
| ROUND_HALF_DOWN
| ROUND_UP
| ROUND_DOWN
| ROUND_CEILING
| ROUND_FLOOR
| ROUND_05UP.

(** Whether the kept part [q] is incremented, given the dropped part [rem]
    out of [p] and the sign of the amount. *)
Definition increments (r : rounding) (negative : bool) (q rem p : Z) : bool :=
  match r with
  | ROUND_HALF_EVEN => (p <? 2 * rem) || ((2 * rem =? p) && Z.odd q)
  | ROUND_HALF_UP => p <=? 2 * rem
  | ROUND_HALF_DOWN => p <? 2 * rem
  | ROUND_UP => negb (rem =? 0)
  | ROUND_DOWN => false
  | ROUND_CEILING => negb negative && negb (rem =? 0)
  | ROUND_FLOOR => negative && negb (rem =? 0)
  | ROUND_05UP => negb (rem =? 0) && ((q mod 10 =? 0) || (q mod 10 =? 5))
  end.

(** The coefficient of [d] rescaled to the exponent [-2] under the rounding
    mode [r]. *)
Definition rescale2_in (r : rounding) (d : Decimal) : Z :=
  let c := Z.of_N (coefficient d) in
  let e := exponent d in
  if -2 <=? e then c * 10 ^ (e + 2)
  else
    let p := 10 ^ (-2 - e) in
    let q := c / p in
    let rem := c mod p in
    if increments r (sign d) q rem p then q + 1 else q.

Definition payload_str (payload : N) : string :=
  if (payload =? 0)%N then "" else str_of_nat_Z (Z.of_N payload).

(** [f'{amount:.2f}'] when the current context rounds with [r]. *)
Definition format_2f_in (r : rounding) (amount : DecimalValue) : string :=
  match amount with
  | Finite d =>
      let q := rescale2_in r d in
      (if sign d then "-" else "") ++
      str_of_nat_Z (q / 100) ++ "." ++
      String (digit (q / 10 mod 10)) (String (digit (q mod 10)) "")
  | Special negative s =>
      (if negative then "-" else "") ++
      match s with
      | Infinity => "Infinity"
      | qNaN payload => "NaN" ++ payload_str payload
      | sNaN payload => "sNaN" ++ payload_str payload
      end
  end.

Section Methods.

(** [str.lower], left as a parameter: the Unicode tables are not written
    out.  What the properties use of it is stated with them. *)
Variable str_lower : ustr -> ustr.

Variable JSON : Type.
Variable loads : string -> option JSON.
Variable transport : Net -> Request -> result Response.

(** [verify_notify].  The f-string is encoded as a whole in the source;
    UTF-8 encodes a concatenation piece by piece, and the pieces that come
    from the configuration are held encoded, so the two arguments are
    encoded here. *)
Definition verify_notify (self : FreeKassaClient)
    (amount order_id sign : ustr) : result bool :=
  bind_result (encode_utf8 amount) (fun amount_b =>
  bind_result (encode_utf8 order_id) (fun order_b =>
    let expected :=
      hashlib.hexdigest (hashlib.md5 (encode
        (str_of_int (_merchant_id self) ++ ":" ++ amount_b ++ ":" ++
         _secret2 self ++ ":" ++ order_b))) in
    Ok (ustr_eqb (str_lower (ascii_str expected)) (str_lower sign)))).

(** [ui_create_order]: [sign_str.encode()] is the first step that can
    raise. *)
Definition ui_create_order (r : rounding) (self : FreeKassaClient)
    (amount : DecimalValue) (currency payment_id : ustr)
    (payment_method_id : Z) : result string :=
  let amount_str := format_2f_in r amount in
  bind_result (encode_utf8 currency) (fun currency_b =>
  bind_result (encode_utf8 payment_id) (fun payment_b =>
    let sign_str :=
      str_of_int (_merchant_id self) ++ ":" ++ amount_str ++ ":" ++
      _secret1 self ++ ":" ++ currency_b ++ ":" ++ payment_b in
    let signature := hashlib.hexdigest (hashlib.md5 (encode sign_str)) in
    let payload :=
      [ ("m", VInt (_merchant_id self));
        ("oa", VStr amount_str);
        ("currency", VStr currency_b);
        ("o", VStr payment_b);
        ("s", VStr signature);
        ("i", VInt payment_method_id) ] in
    Ok (_ui_url self ++ "?" ++ urlencode payload))).

(** [api_create_order]: after the guard, [message.encode('utf-8')] inside
    [__hmac_sha256_hex] is the first step that can raise, before
    [requests.post]. *)
Definition api_create_order (r : rounding) (self : FreeKassaClient)
    (nonce i : Z) (user_email user_ip payment_id : ustr)
    (amount : DecimalValue) (currency : ustr) : IO JSON :=
  (api_key <- checked_api_key self ;;
   currency_b <- lift (encode_utf8 currency) ;;
   payment_b <- lift (encode_utf8 payment_id) ;;
   ip_b <- lift (encode_utf8 user_ip) ;;
   email_b <- lift (encode_utf8 user_email) ;;
   let payload :=
     [ ("shopId", VInt (_merchant_id self));
       ("nonce", VInt nonce);
       ("amount", VStr (format_2f_in r amount));
       ("currency", VStr currency_b);
       ("paymentId", VStr payment_b);
       ("ip", VStr ip_b);
       ("email", VStr email_b);
       ("i", VInt i) ] in
   message <- lift (signing_message payload) ;;
   let payload :=
     setitem payload "signature" (VStr (__hmac_sha256_hex message api_key)) in
   r <- post transport (_api_url self ++ "orders/create") payload 10 ;;
   lift (response_json JSON loads r))%io.

End Methods.

End Full.

(** ** Vocabulary of the properties *)

Module Spec.

Import Py decimal urllib requests.

(** A predicate on the characters of a string. *)
Fixpoint all_chars (p : ascii -> bool) (s : string) : bool :=
  match s with
  | EmptyString => true
  | String a r => p a && all_chars p r
  end.

Definition is_digit (a : ascii) : bool := (48 <=? ord a) && (ord a <=? 57).

Definition is_lower_hex (a : ascii) : bool :=
  is_digit a || ((97 <=? ord a) && (ord a <=? 102)).

Definition str_le (a b : string) : Prop := String.leb a b = true.

Definition is_byte (b : Z) : Prop := 0 <= b < 256.



(** Round-half-even, in the words of the specification: [q] is an integer
    nearest to the fraction [num/den], and the even one when two integers
    are equally near. *)
Definition round_half_even (num den q : Z) : Prop :=
  2 * Z.abs (num - q * den) <= den /\
  (2 * Z.abs (num - q * den) = den -> Z.even q = true).

(** The absolute value of [d] in hundredths, as a fraction. *)
Definition hundredths (d : Decimal) : Z * Z :=
  if -2 <=? exponent d
  then (Z.of_N (coefficient d) * 10 ^ (exponent d + 2), 1)
  else (Z.of_N (coefficient d), 10 ^ (-2 - exponent d)).

(** The signature of the checkout URL: the MD5 of the colon-joined fields. *)
Definition checkout_signature (self : FreeKassaClient) (amount : Decimal)
    (currency payment_id : string) : string :=
  hashlib.hexdigest (hashlib.md5 (encode
    (str_of_int (_merchant_id self) ++ ":" ++ format_2f amount ++ ":" ++
     _secret1 self ++ ":" ++ currency ++ ":" ++ payment_id))).

(** The query string of the checkout URL, parameter by parameter. *)
Definition checkout_query (self : FreeKassaClient) (amount : Decimal)
    (currency payment_id : string) (payment_method_id : Z) : string :=
  "m=" ++ str_of_int (_merchant_id self) ++
  "&oa=" ++ format_2f amount ++
  "&currency=" ++ quote_plus currency ++
  "&o=" ++ quote_plus payment_id ++
  "&s=" ++ checkout_signature self amount currency payment_id ++
  "&i=" ++ str_of_int payment_method_id.

(** Characters that can occur in the output of [quote_plus]. *)
Definition is_quoted (a : ascii) : bool :=
  always_safe a || Ascii.eqb a "%" || Ascii.eqb a "+".

Definition not_amp (a : ascii) : bool := negb (Ascii.eqb a "&").

Definition not_amp_eq (a : ascii) : bool :=
  negb (Ascii.eqb a "&") && negb (Ascii.eqb a "=").

(** The pieces of [s] between occurrences of [sep]. *)
Fixpoint split_on (sep : ascii) (s : string) : list string :=
  match s with
  | EmptyString => [""]
  | String a r =>
      if Ascii.eqb a sep then "" :: split_on sep r
      else
        match split_on sep r with
        | [] => [String a ""]
        | h :: t => String a h :: t
        end
  end.

(** The part of [s] before the first [=]. *)
Fixpoint before_equals (s : string) : string :=
  match s with
  | EmptyString => EmptyString
  | String a r => if Ascii.eqb a "=" then EmptyString else String a (before_equals r)
  end.

(** The parameter names of a query string, in the order they appear. *)
Definition param_names (query : string) : list string :=
  map before_equals (split_on "&" query).

(** The message signed by [api_create_order]: the values in the order of
    the sorted keys, separated by [|]. *)
Definition create_message (self : FreeKassaClient) (nonce i : Z)
    (user_email user_ip payment_id : string) (amount : Decimal)
    (currency : string) : string :=
  format_2f amount ++ "|" ++ currency ++ "|" ++ user_email ++ "|" ++
  str_of_int i ++ "|" ++ user_ip ++ "|" ++ str_of_int nonce ++ "|" ++
  payment_id ++ "|" ++ str_of_int (_merchant_id self).

(** The payload of [api_create_order] before it is signed. *)
Definition create_payload (self : FreeKassaClient) (nonce i : Z)
    (user_email user_ip payment_id : string) (amount : Decimal)
    (currency : string) : dict :=
  [ ("shopId", VInt (_merchant_id self));
    ("nonce", VInt nonce);
    ("amount", VStr (format_2f amount));
    ("currency", VStr currency);
    ("paymentId", VStr payment_id);
    ("ip", VStr user_ip);
    ("email", VStr user_email);
    ("i", VInt i) ].

(** The request [api_create_order] sends when the API key is [key]. *)
Definition create_order_request (self : FreeKassaClient) (key : string)
    (nonce i : Z) (user_email user_ip payment_id : string) (amount : Decimal)
    (currency : string) : Request :=
  mkRequest (_api_url self ++ "orders/create")
    (create_payload self nonce i user_email user_ip payment_id amount currency
     ++ [("signature", VStr (hashlib.hexdigest (hmac.hmac_sha256 (encode key)
           (encode (create_message self nonce i user_email user_ip payment_id
                      amount currency)))))])%list
    10.

Definition get_message (self : FreeKassaClient) (payment_id : string) : string :=
  str_of_int (_nonce self) ++ "|" ++ payment_id ++ "|" ++
  str_of_int (_merchant_id self).

Definition get_payload (self : FreeKassaClient) (payment_id : string) : dict :=
  [ ("shopId", VInt (_merchant_id self));
    ("nonce", VInt (_nonce self));
    ("paymentId", VStr payment_id) ].

(** The request [api_get_order] sends when the API key is [key]. *)
Definition get_order_request (self : FreeKassaClient) (key : string)
    (payment_id : string) : Request :=
  mkRequest (_api_url self ++ "orders")
    (get_payload self payment_id
     ++ [("signature", VStr (hashlib.hexdigest (hmac.hmac_sha256 (encode key)
           (encode (get_message self payment_id)))))])%list
    10.

(** Stand-ins for the outside world, to run the methods on examples: a
    decoder that rejects the empty body and hands any other body back as
    it is, and a remote end that answers every request the same way. *)
Definition raw_loads (body : string) : option string :=
  if String.eqb body "" then None else Some body.

Definition fixed_transport (answer : result Response) : Net -> Request -> result Response :=
  fun _ _ => answer.

(** The module's [client] with the API key left out. *)
Definition client_without_key : FreeKassaClient :=
  __init__ 66058 "2aJ0hR?0Z-[=VJ6" "Hs)D3l&hb4(?xFf"
    None None None None None None None.

(** The module's [client] with other callback URLs, first secret and UI
    base URL. *)
Definition client_other_settings : FreeKassaClient :=
  __init__ 66058 "a first secret" "a second secret"
    (Some "962c879ce9be06f9d34a556872869220")
    (Some "https://shop.example/ok") (Some "https://shop.example/fail")
    None None (Some "https://pay.example/") None.

(** What [quote_plus] writes for one character. *)
Definition quote_char (a : ascii) : string :=
  if always_safe a then String a ""
  else if Ascii.eqb a " " then "+"
  else percent a.

Fixpoint quote_chars_of (s : string) : string :=
  match s with
  | EmptyString => EmptyString
  | String a r => quote_char a ++ quote_chars_of r
  end.

(** The value of a hexadecimal digit, in either case. *)
Definition hex_value (a : ascii) : option Z :=
  let c := ord a in
  if (48 <=? c) && (c <=? 57) then Some (c - 48)
  else if (65 <=? c) && (c <=? 70) then Some (c - 55)
  else if (97 <=? c) && (c <=? 102) then Some (c - 87)
  else None.

(** The reading side of [quote], as [urllib.parse.unquote] does it on
    bytes: [%XX] becomes the byte [XX], anything else stays. *)
Fixpoint unquote (s : string) : string :=
  match s with
  | EmptyString => EmptyString
  | String a r =>
      if Ascii.eqb a "%" then
        match r with
        | String h (String l r') =>
            match hex_value h, hex_value l with
            | Some x, Some y => String (chr (16 * x + y)) (unquote r')
            | _, _ => String a (unquote r)
            end
        | _ => String a (unquote r)
        end
      else String a (unquote r)
  end.

(** [s.replace('+', ' ')]. *)
Fixpoint replace_plus (s : string) : string :=
  match s with
  | EmptyString => EmptyString
  | String a r =>
      String (if Ascii.eqb a "+" then " "%char else a) (replace_plus r)
  end.

(** The reading side of [quote_plus], as [urllib.parse.unquote_plus]. *)
Definition unquote_plus (s : string) : string := unquote (replace_plus s).

(** The part of [s] after the first [=]; empty when there is none. *)
Fixpoint after_equals (s : string) : string :=
  match s with
  | EmptyString => EmptyString
  | String a r => if Ascii.eqb a "=" then r else after_equals r
  end.

(** The characters a query string written by [urlencode] is made of. *)
Definition is_query_char (a : ascii) : bool :=
  is_quoted a || Ascii.eqb a "&" || Ascii.eqb a "=".

(** How a server reads a query string: pieces between [&], each split at
    its first [=], both sides unquoted. *)
Definition decode_query (query : string) : list (string * string) :=
  map (fun piece => (unquote_plus (before_equals piece),
                     unquote_plus (after_equals piece)))
      (split_on "&" query).

(** *** Vocabulary for the methods of [Full] *)

Definition is_ascii_cp (c : Z) : bool := (0 <=? c) && (c <? 128).

Definition is_ascii_char (a : ascii) : bool := ord a <? 128.

(** A code point that is one of [0-9a-f]. *)
Definition is_hex_cp (c : Z) : bool :=
  ((48 <=? c) && (c <=? 57)) || ((97 <=? c) && (c <=? 102)).

Definition has_surrogate (s : Full.ustr) : bool := existsb Full.is_surrogate s.

(** The two facts about [str.lower] that the properties of [verify_notify]
    rest on: on ASCII text it folds the letters [A-Z] and nothing else; and
    the lowercase form of a text with a character outside ASCII still holds
    a character that is not one of [0-9a-f]. *)
Definition lower_facts (str_lower : Full.ustr -> Full.ustr) : Prop :=
  (forall s, all_chars is_ascii_char s = true ->
             str_lower (Full.ascii_str s) = Full.ascii_str (lower s)) /\
  (forall s, forallb is_ascii_cp s = false ->
             forallb is_hex_cp (str_lower s) = false).

(** A stand-in for [str.lower] to run examples: folds [A-Z], leaves every
    other code point. *)
Definition ascii_only_lower (s : Full.ustr) : Full.ustr :=
  map (fun c => if (65 <=? c) && (c <=? 90) then c + 32 else c) s.

(** The character [c] of a signature agrees with the digest character [d]
    when case is ignored. *)
Definition fold_matches (c : Z) (d : ascii) : bool :=
  (c =? ord d) || ((65 <=? c) && (c <=? 90) && (c + 32 =? ord d)).

(** The signature agrees with the digest, character by character, when
    case is ignored. *)
Fixpoint same_ignoring_case (sign : Full.ustr) (digest : string) : bool :=
  match sign, digest with
  | [], EmptyString => true
  | c :: sign', String d digest' =>
      fold_matches c d && same_ignoring_case sign' digest'
  | _, _ => false
  end.






(** The query of the checkout URL for the encoded currency and payment id,
    when the context rounds with [r]. *)
Definition checkout_query_in (r : Full.rounding) (self : FreeKassaClient)
    (amount : Full.DecimalValue) (currency payment_id : string)
    (payment_method_id : Z) : string :=
  "m=" ++ str_of_int (_merchant_id self) ++
  "&oa=" ++ Full.format_2f_in r amount ++
  "&currency=" ++ quote_plus currency ++
  "&o=" ++ quote_plus payment_id ++
  "&s=" ++ hashlib.hexdigest (hashlib.md5 (encode
             (str_of_int (_merchant_id self) ++ ":" ++
              Full.format_2f_in r amount ++ ":" ++ _secret1 self ++ ":" ++
              currency ++ ":" ++ payment_id))) ++
  "&i=" ++ str_of_int payment_method_id.

(** The request [Full.api_create_order] hands to [requests.post] for the
    encoded arguments, when the context rounds with [r]. *)
Definition create_order_request_in (r : Full.rounding)
    (self : FreeKassaClient) (key : string) (nonce i : Z)
    (user_email user_ip payment_id : string) (amount : Full.DecimalValue)
    (currency : string) : Request :=
  mkRequest (_api_url self ++ "orders/create")
    [ ("shopId", VInt (_merchant_id self));
      ("nonce", VInt nonce);
      ("amount", VStr (Full.format_2f_in r amount));
      ("currency", VStr currency);
      ("paymentId", VStr payment_id);
      ("ip", VStr user_ip);
      ("email", VStr user_email);
      ("i", VInt i);
      ("signature",
       VStr (hashlib.hexdigest (hmac.hmac_sha256 (encode key) (encode
         (Full.format_2f_in r amount ++ "|" ++ currency ++ "|" ++
          user_email ++ "|" ++ str_of_int i ++ "|" ++ user_ip ++ "|" ++
          str_of_int nonce ++ "|" ++ payment_id ++ "|" ++
          str_of_int (_merchant_id self)))))) ]
    10.


End Spec.

(** * Properties *)

(** ** Facts about the built-ins *)

Module PyFacts.

Import Py Spec.

Ltac each_ascii a :=
  destruct a as [[] [] [] [] [] [] [] []]; vm_compute; try reflexivity.

Lemma lower_ascii_idem (a : ascii) : lower_ascii (lower_ascii a) = lower_ascii a.
Proof. each_ascii a. Qed.

Lemma lower_upper_ascii (a : ascii) : lower_ascii (upper_ascii a) = lower_ascii a.
Proof. each_ascii a. Qed.

Lemma lower_idem (s : string) : lower (lower s) = lower s.
Proof.
  induction s as [|a r IH]; simpl; [reflexivity|].
  now rewrite lower_ascii_idem, IH.
Qed.

Lemma lower_upper (s : string) : lower (upper s) = lower s.
Proof.
  induction s as [|a r IH]; simpl; [reflexivity|].
  now rewrite lower_upper_ascii, IH.
Qed.

Lemma lower_app (s t : string) : lower (s ++ t) = lower s ++ lower t.
Proof.
  induction s as [|a r IH]; simpl; [reflexivity|]. now rewrite IH.
Qed.

Lemma all_chars_app p (s t : string) :
  all_chars p (s ++ t) = all_chars p s && all_chars p t.
Proof.
  induction s as [|a r IH]; simpl; [reflexivity|].
  now rewrite IH, andb_assoc.
Qed.

Lemma all_chars_weaken (p q : ascii -> bool) (s : string) :
  (forall a, p a = true -> q a = true) ->
  all_chars p s = true -> all_chars q s = true.
Proof.
  intros Hpq. induction s as [|a r IH]; simpl; [reflexivity|].
  intros H. apply andb_true_iff in H as [Ha Hr].
  apply andb_true_iff. split; [now apply Hpq | now apply IH].
Qed.

Lemma small_cases (d : Z) (P : Z -> Prop) :
  0 <= d < 16 ->
  P 0 -> P 1 -> P 2 -> P 3 -> P 4 -> P 5 -> P 6 -> P 7 ->
  P 8 -> P 9 -> P 10 -> P 11 -> P 12 -> P 13 -> P 14 -> P 15 -> P d.
Proof.
  intros Hd.
  assert (H : d = 0 \/ d = 1 \/ d = 2 \/ d = 3 \/ d = 4 \/ d = 5 \/ d = 6 \/
              d = 7 \/ d = 8 \/ d = 9 \/ d = 10 \/ d = 11 \/ d = 12 \/
              d = 13 \/ d = 14 \/ d = 15) by lia.
  intros. repeat (destruct H as [-> | H]; [assumption|]). now subst.
Qed.

Lemma digit_is_digit (d : Z) : 0 <= d < 10 -> is_digit (digit d) = true.
Proof.
  intros Hd. assert (H16 : 0 <= d < 16) by lia. revert Hd.
  apply (small_cases d (fun d => 0 <= d < 10 -> is_digit (digit d) = true) H16);
    intros; try reflexivity; lia.
Qed.

Lemma digits_fuel_digits (fuel : nat) (n : Z) (acc : string) :
  0 <= n -> all_chars is_digit acc = true ->
  all_chars is_digit (digits_fuel fuel n acc) = true.
Proof.
  revert n acc. induction fuel as [|f IH]; intros n acc Hn Hacc; simpl.
  - assumption.
  - assert (Hd : all_chars is_digit (String (digit (n mod 10)) acc) = true).
    { simpl. rewrite Hacc, digit_is_digit; [reflexivity|].
      apply Z.mod_pos_bound; lia. }
    destruct (n <? 10); [assumption|].
    apply IH; [apply Z.div_pos; lia | assumption].
Qed.

Lemma str_of_nat_Z_digits (n : Z) :
  0 <= n -> all_chars is_digit (str_of_nat_Z n) = true.
Proof. intros Hn. now apply digits_fuel_digits. Qed.

(** [str(n)] is an optional minus sign followed by digits. *)
Lemma str_of_int_chars (n : Z) :
  all_chars (fun a => is_digit a || Ascii.eqb a "-") (str_of_int n) = true.
Proof.
  unfold str_of_int. destruct (n <? 0) eqn:E.
  - simpl. apply Z.ltb_lt in E.
    apply all_chars_weaken with (p := is_digit).
    + intros a ->. reflexivity.
    + apply str_of_nat_Z_digits. lia.
  - apply Z.ltb_ge in E.
    apply all_chars_weaken with (p := is_digit).
    + intros a ->. reflexivity.
    + now apply str_of_nat_Z_digits.
Qed.

(** [d[k]] succeeds on the keys of [d]. *)
Lemma getitem_keys (d : dict) (k : string) :
  In k (keys d) -> exists v, getitem d k = Some v.
Proof.
  induction d as [|[k' v'] r IH]; simpl; [tauto|].
  intros [-> | Hin].
  - rewrite String.eqb_refl. now exists v'.
  - destruct (String.eqb k k'); [now exists v' | now apply IH].
Qed.

(** On a [dict] that lacks [k], [d[k] = v] appends the pair. *)
Lemma setitem_fresh (d : dict) (k : string) (v : value) :
  ~ In k (keys d) -> setitem d k v = (d ++ [(k, v)])%list.
Proof.
  induction d as [|[k' v'] r IH]; simpl; [reflexivity|].
  intros Hn. destruct (String.eqb k k') eqn:E.
  - apply String.eqb_eq in E. subst. tauto.
  - rewrite IH; [reflexivity | tauto].
Qed.

Lemma insert_sorted_perm (x : string) (l : list string) :
  Permutation (x :: l) (insert_sorted x l).
Proof.
  induction l as [|y r IH]; simpl; [reflexivity|].
  destruct (String.leb x y); [reflexivity|].
  rewrite perm_swap. now constructor.
Qed.

(** [sorted(l)] holds the elements of [l]. *)
Lemma sorted_perm (l : list string) : Permutation l (sorted l).
Proof.
  induction l as [|x r IH]; simpl; [constructor|].
  rewrite <- insert_sorted_perm. now constructor.
Qed.

Lemma insert_sorted_Sorted (x : string) (l : list string) :
  Sorted str_le l -> Sorted str_le (insert_sorted x l).
Proof.
  induction l as [|y r IH]; simpl; intros Hs.
  - repeat constructor.
  - destruct (String.leb x y) eqn:E.
    + constructor; [assumption | now constructor].
    + assert (Hyx : str_le y x).
      { destruct (String.leb_total x y) as [H | H]; [congruence | exact H]. }
      inversion Hs as [|? ? Hr Hhd]; subst.
      constructor; [now apply IH|].
      destruct r as [|z r']; simpl.
      * now constructor.
      * destruct (String.leb x z); constructor; [assumption|].
        now inversion Hhd.
Qed.

(** [sorted(l)] is in ascending order. *)
Lemma sorted_Sorted (l : list string) : Sorted str_le (sorted l).
Proof.
  induction l as [|x r IH]; simpl; [constructor|].
  now apply insert_sorted_Sorted.
Qed.

End PyFacts.

(** ** Facts about the digests and the query string *)

Module LibFacts.

Import Py Spec PyFacts hashlib urllib decimal.

Lemma le_bytes_range (n : nat) (x : Z) : Forall is_byte (le_bytes n x).
Proof.
  revert x. induction n as [|k IH]; intros x; simpl; constructor.
  - apply Z.mod_pos_bound. lia.
  - apply IH.
Qed.

Lemma le_bytes_length (n : nat) (x : Z) : List.length (le_bytes n x) = n.
Proof.
  revert x. induction n as [|k IH]; intros x; simpl; [reflexivity|].
  now rewrite IH.
Qed.

Lemma md5_range (data : bytes) : Forall is_byte (md5 data).
Proof.
  unfold md5.
  destruct (fold_left md5_block _ md5_init) as [[[a b] c] d].
  repeat (apply Forall_app; split); apply le_bytes_range.
Qed.

(** An MD5 digest has 16 bytes. *)
Lemma md5_length (data : bytes) : List.length (md5 data) = 16%nat.
Proof.
  unfold md5.
  destruct (fold_left md5_block _ md5_init) as [[[a b] c] d].
  rewrite !length_app, !le_bytes_length. reflexivity.
Qed.

Lemma sha256_range (data : bytes) : Forall is_byte (sha256 data).
Proof.
  unfold sha256. generalize (fold_left sha256_block
    (split_every 64 (pad (be_bytes 8) data)) sha256_init).
  intros l. induction l as [|w r IH]; [constructor|].
  change (flat_map (be_bytes 4) (w :: r))
    with ((be_bytes 4 w ++ flat_map (be_bytes 4) r)%list).
  apply Forall_app. split; [|exact IH].
  unfold be_bytes. apply Forall_rev. apply le_bytes_range.
Qed.

Lemma hmac_sha256_range (key msg : bytes) :
  Forall is_byte (hmac.hmac_sha256 key msg).
Proof. unfold hmac.hmac_sha256. apply sha256_range. Qed.

Lemma hex_digit_lower_hex (d : Z) :
  0 <= d < 16 -> is_lower_hex (hex_digit d) = true.
Proof.
  intros Hd.
  apply (small_cases d (fun d => is_lower_hex (hex_digit d) = true) Hd);
    reflexivity.
Qed.

(** A hexadecimal digest is made of the characters [0-9a-f]. *)
Lemma hexdigest_chars (d : bytes) :
  Forall is_byte d -> all_chars is_lower_hex (hexdigest d) = true.
Proof.
  induction 1 as [|b r Hb Hr IH]; simpl; [reflexivity|].
  unfold is_byte in Hb.
  rewrite !hex_digit_lower_hex, IH; [reflexivity | |].
  - apply Z.mod_pos_bound. lia.
  - split; [apply Z.div_pos; lia | apply Z.div_lt_upper_bound; lia].
Qed.

Lemma hexdigest_length (d : bytes) :
  String.length (hexdigest d) = (2 * List.length d)%nat.
Proof.
  induction d as [|b r IH]; simpl; [reflexivity|]. rewrite IH. lia.
Qed.

Lemma lower_hex_fixed_ascii (a : ascii) :
  is_lower_hex a = true -> lower_ascii a = a.
Proof. each_ascii a; intros H; first [reflexivity | discriminate]. Qed.

(** [lower] leaves a lowercase hexadecimal string alone. *)
Lemma lower_hex_fixed (s : string) :
  all_chars is_lower_hex s = true -> lower s = s.
Proof.
  induction s as [|a r IH]; simpl; [reflexivity|].
  intros H. apply andb_true_iff in H as [Ha Hr].
  now rewrite lower_hex_fixed_ascii, IH.
Qed.

Lemma lower_hex_safe (a : ascii) : is_lower_hex a = true -> always_safe a = true.
Proof. each_ascii a; intros H; first [reflexivity | discriminate]. Qed.

Lemma digit_minus_safe (a : ascii) :
  is_digit a || Ascii.eqb a "-" = true -> always_safe a = true.
Proof. each_ascii a; intros H; first [reflexivity | discriminate]. Qed.

Lemma digit_safe (a : ascii) : is_digit a = true -> always_safe a = true.
Proof. each_ascii a; intros H; first [reflexivity | discriminate]. Qed.

Lemma safe_not_space (a : ascii) :
  always_safe a = true -> Ascii.eqb " " a = false.
Proof. each_ascii a; intros H; first [reflexivity | discriminate]. Qed.

Lemma quote_safe (safe s : string) :
  all_chars always_safe s = true -> quote safe s = s.
Proof.
  induction s as [|a r IH]; simpl; [reflexivity|].
  intros H. apply andb_true_iff in H as [Ha Hr].
  now rewrite Ha, IH.
Qed.

Lemma occurs_space_safe (s : string) :
  all_chars always_safe s = true -> occurs " " s = false.
Proof.
  induction s as [|a r IH]; cbn [occurs all_chars]; [reflexivity|].
  intros H. apply andb_true_iff in H as [Ha Hr].
  now rewrite safe_not_space, IH.
Qed.

(** [quote_plus] leaves a string of unreserved characters alone. *)
Lemma quote_plus_safe (s : string) :
  all_chars always_safe s = true -> quote_plus s = s.
Proof.
  intros H. unfold quote_plus.
  rewrite occurs_space_safe by assumption. now apply quote_safe.
Qed.

Lemma quote_plus_str_of_int (n : Z) : quote_plus (str_of_int n) = str_of_int n.
Proof.
  apply quote_plus_safe.
  apply all_chars_weaken with (2 := str_of_int_chars n).
  apply digit_minus_safe.
Qed.

Lemma quote_plus_hexdigest (d : bytes) :
  Forall is_byte d -> quote_plus (hexdigest d) = hexdigest d.
Proof.
  intros H. apply quote_plus_safe.
  apply all_chars_weaken with (2 := hexdigest_chars d H).
  apply lower_hex_safe.
Qed.

End LibFacts.

(** ** Facts about number formatting *)

Module FormatFacts.

Import Py Spec PyFacts decimal.




Lemma round_half_even_unique (num den q1 q2 : Z) :
  0 < den ->
  round_half_even num den q1 -> round_half_even num den q2 -> q1 = q2.
Proof.
  intros Hden [H1 E1] [H2 E2].
  assert (Hd : q1 = q2 \/ q1 = q2 + 1 \/ q2 = q1 + 1) by nia.
  destruct Hd as [H | [H | H]]; [assumption | |]; subst; exfalso.
  - assert (T1 : 2 * Z.abs (num - (q2 + 1) * den) = den) by nia.
    assert (T2 : 2 * Z.abs (num - q2 * den) = den) by nia.
    specialize (E1 T1). specialize (E2 T2).
    rewrite Z.even_add in E1. rewrite E2 in E1. discriminate.
  - assert (T1 : 2 * Z.abs (num - q1 * den) = den) by nia.
    assert (T2 : 2 * Z.abs (num - (q1 + 1) * den) = den) by nia.
    specialize (E1 T1). specialize (E2 T2).
    rewrite Z.even_add in E2. rewrite E1 in E2. discriminate.
Qed.

Lemma rescale2_nonneg (d : Decimal) : 0 <= rescale2 d.
Proof.
  unfold rescale2. pose proof (N2Z.is_nonneg (coefficient d)) as Hc.
  destruct (-2 <=? exponent d) eqn:E.
  - apply Z.leb_le in E. apply Z.mul_nonneg_nonneg; [assumption|].
    apply Z.pow_nonneg. lia.
  - apply Z.leb_gt in E.
    assert (Hp : 0 < 10 ^ (-2 - exponent d)) by (apply Z.pow_pos_nonneg; lia).
    assert (Hq : 0 <= Z.of_N (coefficient d) / 10 ^ (-2 - exponent d))
      by (apply Z.div_pos; lia).
    destruct (_ || _); lia.
Qed.

(** The rescaled coefficient is the round-half-even of the amount in
    hundredths. *)
Lemma rescale2_round_half_even (d : Decimal) :
  round_half_even (fst (hundredths d)) (snd (hundredths d)) (rescale2 d).
Proof.
  unfold hundredths, rescale2, round_half_even.
  destruct (-2 <=? exponent d) eqn:E; cbn [fst snd].
  - rewrite Z.mul_1_r, Z.sub_diag. simpl. split; [lia | intros; lia].
  - apply Z.leb_gt in E.
    set (c := Z.of_N (coefficient d)).
    set (p := 10 ^ (-2 - exponent d)).
    assert (Hp : 0 < p) by (apply Z.pow_pos_nonneg; lia).
    pose proof (Z.div_mod c p ltac:(lia)) as Hdm.
    pose proof (Z.mod_pos_bound c p Hp) as Hr.
    set (q := c / p) in *. set (r := c mod p) in *.
    destruct (p <? 2 * r) eqn:E1; cbn [orb].
    + apply Z.ltb_lt in E1.
      replace (c - (q + 1) * p) with (r - p) by lia.
      split; [lia | intros; lia].
    + apply Z.ltb_ge in E1.
      destruct (2 * r =? p) eqn:E2; cbn [andb].
      * apply Z.eqb_eq in E2. destruct (Z.odd q) eqn:E3.
        -- replace (c - (q + 1) * p) with (r - p) by lia.
           split; [lia|]. intros _.
           rewrite Z.even_add, <- Z.negb_odd, E3. reflexivity.
        -- replace (c - q * p) with r by lia.
           split; [lia|]. intros _. now rewrite <- Z.negb_odd, E3.
      * apply Z.eqb_neq in E2.
        replace (c - q * p) with r by lia.
        split; [lia | intros; lia].
Qed.

(** The three printed fields of [format_2f] spell the rescaled
    coefficient. *)
Lemma format_2f_fields (q : Z) :
  0 <= q ->
  100 * (q / 100) + 10 * (q / 10 mod 10) + q mod 10 = q /\
  0 <= q / 100 /\ 0 <= q / 10 mod 10 < 10 /\ 0 <= q mod 10 < 10.
Proof.
  intros Hq.
  pose proof (Z.div_mod q 10 ltac:(lia)).
  pose proof (Z.div_mod (q / 10) 10 ltac:(lia)).
  pose proof (Z.mod_pos_bound q 10 ltac:(lia)).
  pose proof (Z.mod_pos_bound (q / 10) 10 ltac:(lia)).
  assert (q / 100 = q / 10 / 10) by (rewrite Z.div_div by lia; reflexivity).
  assert (0 <= q / 100) by (apply Z.div_pos; lia).
  lia.
Qed.

Lemma format_2f_chars (d : Decimal) :
  all_chars urllib.always_safe (format_2f d) = true.
Proof.
  unfold format_2f.
  pose proof (rescale2_nonneg d) as Hq.
  destruct (format_2f_fields _ Hq) as (_ & Hi & H1 & H0).
  rewrite !all_chars_app. cbn [all_chars].
  repeat (apply andb_true_iff; split); try reflexivity.
  - destruct (sign d); reflexivity.
  - apply all_chars_weaken with (p := is_digit);
      [apply LibFacts.digit_safe | now apply str_of_nat_Z_digits].
  - apply LibFacts.digit_safe. now apply digit_is_digit.
  - apply LibFacts.digit_safe. now apply digit_is_digit.
Qed.

End FormatFacts.

(** ** The query string *)

Module QueryFacts.

Import Py Spec PyFacts LibFacts FormatFacts decimal urllib.

Lemma percent_quoted (a : ascii) : all_chars is_quoted (percent a) = true.
Proof. each_ascii a. Qed.

Lemma quote_chars (safe s : string) :
  (safe = "" \/ safe = " ") ->
  all_chars (fun a => is_quoted a || Ascii.eqb a " ") (quote safe s) = true.
Proof.
  intros Hsafe. induction s as [|a r IH]; cbn [quote]; [reflexivity|].
  destruct (always_safe a || occurs a safe) eqn:E.
  - cbn [all_chars]. rewrite IH, andb_true_r.
    apply orb_true_iff in E as [E | E].
    + unfold is_quoted. now rewrite E.
    + destruct Hsafe as [-> | ->]; cbn [occurs] in E; [discriminate|].
      rewrite orb_false_r in E. rewrite E. apply orb_true_r.
  - rewrite all_chars_app, IH, andb_true_r.
    apply all_chars_weaken with (2 := percent_quoted a).
    intros c ->. reflexivity.
Qed.

Lemma replace_space_chars (s : string) :
  all_chars (fun a => is_quoted a || Ascii.eqb a " ") s = true ->
  all_chars is_quoted (replace_space s) = true.
Proof.
  induction s as [|a r IH]; cbn [replace_space all_chars]; [reflexivity|].
  intros H. apply andb_true_iff in H as [Ha Hr]. rewrite (IH Hr), andb_true_r.
  destruct (Ascii.eqb a " ") eqn:E; [reflexivity|].
  now rewrite orb_false_r in Ha.
Qed.

Lemma no_space_chars (s : string) :
  occurs " " s = false ->
  all_chars (fun a => is_quoted a || Ascii.eqb a " ") s = true ->
  all_chars is_quoted s = true.
Proof.
  induction s as [|a r IH]; cbn [occurs all_chars]; [reflexivity|].
  intros Ho H. apply orb_false_iff in Ho as [Ha Hr].
  apply andb_true_iff in H as [Hq Hqr]. rewrite (IH Hr Hqr), andb_true_r.
  rewrite Ascii.eqb_sym in Ha. now rewrite Ha, orb_false_r in Hq.
Qed.

Lemma occurs_quote_empty (s : string) :
  occurs " " s = false -> occurs " " (quote "" s) = false.
Proof.
  induction s as [|a r IH]; cbn [occurs quote]; [reflexivity|].
  intros H. apply orb_false_iff in H as [Ha Hr].
  rewrite orb_false_r. destruct (always_safe a) eqn:E.
  - cbn [occurs]. now rewrite Ha, IH.
  - assert (Hp : forall t, occurs " " (percent a ++ t) = occurs " " t).
    { intros t. clear. each_ascii a. }
    now rewrite Hp, IH.
Qed.

(** The output of [quote_plus] is made of unreserved characters, [%] and
    [+]. *)
Lemma quote_plus_chars (s : string) :
  all_chars is_quoted (quote_plus s) = true.
Proof.
  unfold quote_plus. destruct (occurs " " s) eqn:E.
  - apply replace_space_chars, quote_chars. now right.
  - apply no_space_chars; [now apply occurs_quote_empty|].
    apply quote_chars. now left.
Qed.

Lemma is_quoted_not_amp_eq (a : ascii) :
  is_quoted a = true -> not_amp_eq a = true.
Proof. each_ascii a; intros H; first [reflexivity | discriminate]. Qed.

Lemma split_on_piece (a r : string) :
  all_chars not_amp a = true ->
  split_on "&" (a ++ String "&" r) = a :: split_on "&" r.
Proof.
  induction a as [|c a' IH]; cbn [String.append split_on all_chars].
  - intros _. reflexivity.
  - intros H. apply andb_true_iff in H as [Hc Ha].
    unfold not_amp in Hc. apply negb_true_iff in Hc. rewrite Hc.
    now rewrite (IH Ha).
Qed.

Lemma split_on_last (a : string) :
  all_chars not_amp a = true -> split_on "&" a = [a].
Proof.
  induction a as [|c a' IH]; cbn [split_on all_chars].
  - intros _. reflexivity.
  - intros H. apply andb_true_iff in H as [Hc Ha].
    unfold not_amp in Hc. apply negb_true_iff in Hc. rewrite Hc.
    now rewrite (IH Ha).
Qed.

Lemma before_equals_pair (k v : string) :
  all_chars not_amp_eq k = true -> before_equals (k ++ String "=" v) = k.
Proof.
  induction k as [|c k' IH]; cbn [String.append before_equals all_chars].
  - intros _. reflexivity.
  - intros H. apply andb_true_iff in H as [Hc Hk].
    unfold not_amp_eq in Hc. apply andb_true_iff in Hc as [_ Hc].
    apply negb_true_iff in Hc. rewrite Hc. now rewrite (IH Hk).
Qed.

Lemma pair_not_amp (k v : string) :
  all_chars not_amp_eq k = true -> all_chars not_amp_eq v = true ->
  all_chars not_amp (k ++ "=" ++ v) = true.
Proof.
  intros Hk Hv. rewrite !all_chars_app. cbn [all_chars].
  assert (W : forall a, not_amp_eq a = true -> not_amp a = true).
  { intros a H. unfold not_amp_eq in H. now apply andb_true_iff in H as [H _]. }
  rewrite (all_chars_weaken _ _ _ W Hk), (all_chars_weaken _ _ _ W Hv).
  reflexivity.
Qed.

(** Reading the names back from [k1=v1&k2=v2&...]. *)
Lemma param_names_join (kvs : list (string * string)) :
  kvs <> [] ->
  Forall (fun kv => all_chars not_amp_eq (fst kv) = true /\
                    all_chars not_amp_eq (snd kv) = true) kvs ->
  param_names (join "&" (map (fun kv => fst kv ++ "=" ++ snd kv) kvs)) =
  map fst kvs.
Proof.
  unfold param_names.
  induction kvs as [|[k v] r IH]; [congruence|].
  intros _ HF. inversion HF as [|? ? [Hk Hv] Hr]; subst. cbn [fst snd] in *.
  destruct r as [|kv' r'].
  - cbn [map join fst snd].
    rewrite split_on_last by now apply pair_not_amp.
    cbn [map String.append]. now rewrite before_equals_pair.
  - change (join "&" (map (fun kv => fst kv ++ "=" ++ snd kv) ((k, v) :: kv' :: r')))
      with ((k ++ "=" ++ v) ++ String "&"
              (join "&" (map (fun kv => fst kv ++ "=" ++ snd kv) (kv' :: r')))).
    rewrite split_on_piece by now apply pair_not_amp.
    cbn [map fst String.append]. rewrite before_equals_pair by assumption.
    f_equal. apply IH; [congruence | assumption].
Qed.

(** The parameter names of [urlencode(d)] are the quoted keys of [d], in
    the order of [d]. *)
Lemma param_names_urlencode (d : dict) :
  d <> [] -> param_names (urlencode d) = map quote_plus (keys d).
Proof.
  intros Hd. unfold urlencode, keys.
  set (kvs := map (fun kv : string * value =>
                     (quote_plus (fst kv), quote_plus (str (snd kv)))) d).
  replace (map (fun kv : string * value =>
             quote_plus (fst kv) ++ "=" ++ quote_plus (str (snd kv))) d)
    with (map (fun kv : string * string => fst kv ++ "=" ++ snd kv) kvs)
    by (unfold kvs; rewrite map_map; reflexivity).
  rewrite param_names_join.
  - unfold kvs. rewrite !map_map. reflexivity.
  - unfold kvs. destruct d; [congruence | discriminate].
  - unfold kvs. apply Forall_map, Forall_forall. intros kv _. cbn [fst snd].
    split; apply all_chars_weaken with (2 := quote_plus_chars _);
      apply is_quoted_not_amp_eq.
Qed.

End QueryFacts.

(** ** The methods that do not touch the network *)

Module PureFacts.

Import Py Spec PyFacts LibFacts FormatFacts QueryFacts.
Import decimal urllib requests hashlib.

(** The query of the checkout URL, with the values that need no escaping
    written as they are. *)
Lemma ui_create_order_url (self : FreeKassaClient) (amount : Decimal)
    (currency payment_id : string) (payment_method_id : Z) :
  ui_create_order self amount currency payment_id payment_method_id =
  _ui_url self ++ "?" ++
  checkout_query self amount currency payment_id payment_method_id.
Proof.
  unfold ui_create_order, checkout_query, checkout_signature, urlencode.
  cbn [map join fst snd str].
  change (quote_plus "m") with "m". change (quote_plus "oa") with "oa".
  change (quote_plus "currency") with "currency".
  change (quote_plus "o") with "o". change (quote_plus "s") with "s".
  change (quote_plus "i") with "i".
  rewrite !quote_plus_str_of_int.
  rewrite (quote_plus_safe (format_2f amount)) by apply format_2f_chars.
  rewrite quote_plus_hexdigest by apply md5_range.
  cbn [String.append]. reflexivity.
Qed.

Lemma checkout_query_names (self : FreeKassaClient) (amount : Decimal)
    (currency payment_id : string) (payment_method_id : Z) :
  param_names (checkout_query self amount currency payment_id payment_method_id)
  = ["m"; "oa"; "currency"; "o"; "s"; "i"].
Proof.
  pose proof (ui_create_order_url self amount currency payment_id
                payment_method_id) as H.
  unfold ui_create_order in H.
  set (payload := [("m", VInt (_merchant_id self)); _; _; _; _; _]) in H.
  assert (Hq : urlencode payload =
               checkout_query self amount currency payment_id payment_method_id).
  { revert H. generalize (urlencode payload). generalize (checkout_query self amount currency payment_id payment_method_id).
    intros x y H. induction (_ui_url self) as [|c u IH]; cbn [String.append] in H.
    - now injection H.
    - injection H as H. now apply IH. }
  rewrite <- Hq. rewrite param_names_urlencode by discriminate.
  reflexivity.
Qed.

Lemma md5hex_lower (data : string) : lower (__md5hex data) = __md5hex data.
Proof.
  unfold __md5hex. apply lower_hex_fixed, hexdigest_chars, md5_range.
Qed.

Lemma assign_if_set_none (current : string) : assign_if_set None current = current.
Proof. reflexivity. Qed.

Lemma assign_if_set_empty (current : string) :
  assign_if_set (Some "") current = current.
Proof. reflexivity. Qed.

Lemma assign_if_set_some (u current : string) :
  u <> "" -> assign_if_set (Some u) current = u.
Proof.
  intros Hu. unfold assign_if_set, truthy.
  apply String.eqb_neq in Hu. now rewrite Hu.
Qed.

End PureFacts.

(** ** The methods that call the API *)

Section ApiFacts.

Import Py Spec PyFacts LibFacts FormatFacts QueryFacts PureFacts.
Import decimal urllib requests hashlib.

Variable JSON : Type.
Variable loads : string -> option JSON.
Variable transport : Net -> Request -> result Response.

Lemma map_result_ok {A B} (f : A -> result B) (l : list A) :
  (forall x, In x l -> exists y, f x = Ok y) ->
  exists ys, map_result f l = Ok ys.
Proof.
  induction l as [|x r IH]; intros H; cbn [map_result].
  - now exists [].
  - destruct (H x (or_introl eq_refl)) as [y Hy]. rewrite Hy. cbn [bind_result].
    destruct IH as [ys Hys]; [intros z Hz; apply H; now right|].
    rewrite Hys. cbn [bind_result]. now exists (y :: ys).
Qed.

(** The lookups of [signing_message] never raise [KeyError]: the keys come
    from the payload itself. *)
Lemma signing_message_total (payload : dict) :
  exists m, signing_message payload = Ok m.
Proof.
  unfold signing_message.
  destruct (map_result_ok
              (fun k => match getitem payload k with
                        | Some v => Ok (str v)
                        | None => Raise (KeyError k)
                        end)
              (sorted (keys payload))) as [parts Hp].
  - intros k Hk.
    apply (Permutation_in _ (Permutation_sym (sorted_perm _))) in Hk.
    destruct (getitem_keys _ _ Hk) as [v Hv]. rewrite Hv. now exists (str v).
  - rewrite Hp. cbn [bind_result]. now exists (join "|" parts).
Qed.

Lemma create_signing_message (self : FreeKassaClient) (nonce i : Z)
    (user_email user_ip payment_id : string) (amount : Decimal)
    (currency : string) :
  signing_message
    (create_payload self nonce i user_email user_ip payment_id amount currency)
  = Ok (create_message self nonce i user_email user_ip payment_id amount currency).
Proof. reflexivity. Qed.

Lemma get_signing_message (self : FreeKassaClient) (payment_id : string) :
  signing_message (get_payload self payment_id)
  = Ok (get_message self payment_id).
Proof. reflexivity. Qed.

Lemma checked_api_key_some (self : FreeKassaClient) (key : string) (n : Net) :
  _api_key self = Some key -> key <> "" ->
  checked_api_key self n = (Ok key, n).
Proof.
  intros Hk Hne. unfold checked_api_key. rewrite Hk. unfold truthy.
  apply String.eqb_neq in Hne. now rewrite Hne.
Qed.

Lemma checked_api_key_unset (self : FreeKassaClient) (n : Net) :
  truthy (_api_key self) = false ->
  checked_api_key self n = (Raise (RuntimeError "API key is not set"), n).
Proof.
  intros Hk. unfold checked_api_key.
  destruct (_api_key self) as [k|]; [|reflexivity]. now rewrite Hk.
Qed.

(** One run of [api_create_order] with a key: the request goes out, and the
    result is the transport's failure or the decoded body. *)
Lemma api_create_order_run (self : FreeKassaClient) (key : string)
    (nonce i : Z) (user_email user_ip payment_id : string) (amount : Decimal)
    (currency : string) (n : Net) :
  _api_key self = Some key -> key <> "" ->
  let rq := create_order_request self key nonce i user_email user_ip
              payment_id amount currency in
  api_create_order JSON loads transport self nonce i user_email user_ip
    payment_id amount currency n
  = (bind_result (transport n rq) (response_json JSON loads), (n ++ [rq])%list).
Proof.
  intros Hk Hne rq. unfold api_create_order, bind.
  rewrite (checked_api_key_some self key n Hk Hne).
  unfold lift.
  change (signing_message _) with
    (signing_message (create_payload self nonce i user_email user_ip
                        payment_id amount currency)).
  rewrite create_signing_message.
  unfold post. fold rq.
  change (mkRequest _ _ 10) with rq.
  destruct (transport n rq); reflexivity.
Qed.

(** One run of [api_get_order] with a key. *)
Lemma api_get_order_run (self : FreeKassaClient) (key payment_id : string)
    (n : Net) :
  _api_key self = Some key -> key <> "" ->
  let rq := get_order_request self key payment_id in
  api_get_order JSON loads transport self payment_id n
  = (bind_result (transport n rq) (fun r =>
       bind_result (raise_for_status r) (fun _ => response_json JSON loads r)),
     (n ++ [rq])%list).
Proof.
  intros Hk Hne rq. unfold api_get_order, bind.
  rewrite (checked_api_key_some self key n Hk Hne).
  unfold lift.
  change (signing_message _) with (signing_message (get_payload self payment_id)).
  rewrite get_signing_message.
  unfold post.
  change (mkRequest _ _ 10) with rq.
  destruct (transport n rq) as [r|e]; [|reflexivity].
  cbn [bind_result]. destruct (raise_for_status r); reflexivity.
Qed.

(** [raise_for_status] lets through every status outside 400..599. *)
Lemma raise_for_status_ok (r : Response) :
  ~ (400 <= status_code r < 600) -> raise_for_status r = Ok tt.
Proof.
  intros H. unfold raise_for_status.
  destruct (400 <=? status_code r) eqn:E1; [|reflexivity].
  destruct (status_code r <? 600) eqn:E2; [|reflexivity].
  apply Z.leb_le in E1. apply Z.ltb_lt in E2. lia.
Qed.

(** With such a status [api_get_order] returns the decoded body. *)
Lemma api_get_order_success (self : FreeKassaClient) (key payment_id : string)
    (n : Net) (r : Response) :
  _api_key self = Some key -> key <> "" ->
  transport n (get_order_request self key payment_id) = Ok r ->
  ~ (400 <= status_code r < 600) ->
  fst (api_get_order JSON loads transport self payment_id n)
  = response_json JSON loads r.
Proof.
  intros Hk Hne Hr Hs.
  rewrite (api_get_order_run self key payment_id n Hk Hne).
  cbv zeta. rewrite Hr. cbn [fst bind_result].
  now rewrite raise_for_status_ok.
Qed.

End ApiFacts.

(** ** Test vectors

    The digests against the published vectors (RFC 1321, FIPS 180-4,
    RFC 4231), and the methods on the module's own [client]. *)

Module Vectors.

Import Py Spec decimal urllib requests hashlib.

Example md5_empty :
  hexdigest (md5 (encode "")) = "d41d8cd98f00b204e9800998ecf8427e".
Proof. vm_compute. reflexivity. Qed.

Example md5_abc :
  hexdigest (md5 (encode "abc")) = "900150983cd24fb0d6963f7d28e17f72".
Proof. vm_compute. reflexivity. Qed.

Example md5_two_blocks :
  hexdigest (md5 (encode
    "12345678901234567890123456789012345678901234567890123456789012345678901234567890"))
  = "57edf4a22be3c955ac49da2e2107b67a".
Proof. vm_compute. reflexivity. Qed.

Example sha256_abc :
  hexdigest (sha256 (encode "abc"))
  = "ba7816bf8f01cfea414140de5dae2223b00361a396177a9cb410ff61f20015ad".
Proof. vm_compute. reflexivity. Qed.

Example hmac_sha256_rfc4231_case2 :
  hexdigest (hmac.hmac_sha256 (encode "Jefe") (encode "what do ya want for nothing?"))
  = "5bdcc146bf60754e6a042426089575c75a003f089d2739839dec58b964ec3843".
Proof. vm_compute. reflexivity. Qed.

Example format_2f_ties :
  map format_2f
    [ mkDecimal false 125 (-3); mkDecimal false 135 (-3);
      mkDecimal false 2675 (-3); mkDecimal true 5 (-3);
      mkDecimal false 1 2; mkDecimal false 99995 (-3) ]
  = ["0.12"; "0.14"; "2.68"; "-0.00"; "100.00"; "100.00"].
Proof. vm_compute. reflexivity. Qed.

Example urlencode_escapes :
  urlencode [("currency", VStr "R B+&=%/~"); ("i", VInt (-4))]
  = "currency=R+B%2B%26%3D%25%2F~&i=-4".
Proof. vm_compute. reflexivity. Qed.

Example checkout_known_vector :
  ui_create_order client (mkDecimal false 10000 (-2)) "RUB" "order-1" 4
  = "https://pay.fk.money/?m=66058&oa=100.00&currency=RUB&o=order-1&s=4bc8d94974dbabfec61451745fd0e71f&i=4".
Proof. vm_compute. reflexivity. Qed.

Example notify_known_vector :
  verify_notify client "100.00" "order-1" "528824E3528D5F2FCC1AEA712E4CD2AF" = true /\
  verify_notify client "100.00" "order-1" "528824e3528d5f2fcc1aea712e4cd2af" = true /\
  verify_notify client "100.0" "order-1" "528824e3528d5f2fcc1aea712e4cd2af" = false /\
  verify_notify client "100.00" "order-2" "528824e3528d5f2fcc1aea712e4cd2af" = false.
Proof. vm_compute. repeat split. Qed.

End Vectors.

(** * The claims *)

Section Claims.

Import Py Spec PyFacts LibFacts FormatFacts QueryFacts PureFacts.
Import decimal urllib requests hashlib.

Variable JSON : Type.
Variable loads : string -> option JSON.
Variable transport : Net -> Request -> result Response.

Lemma truthy_some (key : string) : truthy (Some key) = true -> key <> "".
Proof.
  unfold truthy. intros H. apply negb_true_iff in H. now apply String.eqb_neq.
Qed.

(** C10. An empty string given as [api_url] or [ui_url] counts as no
    argument: the client built is the same as without it and uses the
    default host. *)
Theorem empty_base_url_is_absent (merchant_id : Z)
    (secret_word_1 secret_word_2 : string)
    (api_key success_url fail_url notify_url api_url ui_url : option string)
    (nonce : option Z) :
  __init__ merchant_id secret_word_1 secret_word_2 api_key success_url
      fail_url notify_url (Some "") ui_url nonce =
    __init__ merchant_id secret_word_1 secret_word_2 api_key success_url
      fail_url notify_url None ui_url nonce /\
  __init__ merchant_id secret_word_1 secret_word_2 api_key success_url
      fail_url notify_url api_url (Some "") nonce =
    __init__ merchant_id secret_word_1 secret_word_2 api_key success_url
      fail_url notify_url api_url None nonce /\
  _api_url (__init__ merchant_id secret_word_1 secret_word_2 api_key
              success_url fail_url notify_url (Some "") ui_url nonce)
    = "https://api.fk.life/v1/" /\
  _ui_url (__init__ merchant_id secret_word_1 secret_word_2 api_key
             success_url fail_url notify_url api_url (Some "") nonce)
    = "https://pay.fk.money/".
Proof. repeat split. Qed.

(** C2. [api_create_order] signs the values of the eight payload fields taken
    in the order of their sorted names, [amount], [currency], [email],
    [i], [ip], [nonce], [paymentId], [shopId], each turned into a string
    and joined with [|]; the signature is the hexadecimal HMAC-SHA256 of
    that message under the API key; [signature] is not among the signed
    names and enters the payload after the signing, as its last field. *)
Theorem api_create_order_signing (self : FreeKassaClient) (key : string)
    (nonce i : Z) (user_email user_ip payment_id : string) (amount : Decimal)
    (currency : string) (n : Net) :
  _api_key self = Some key ->
  truthy (Some key) = true ->
  let payload :=
    [ ("shopId", VInt (_merchant_id self)); ("nonce", VInt nonce);
      ("amount", VStr (format_2f amount)); ("currency", VStr currency);
      ("paymentId", VStr payment_id); ("ip", VStr user_ip);
      ("email", VStr user_email); ("i", VInt i) ] in
  let message :=
    format_2f amount ++ "|" ++ currency ++ "|" ++ user_email ++ "|" ++
    str_of_int i ++ "|" ++ user_ip ++ "|" ++ str_of_int nonce ++ "|" ++
    payment_id ++ "|" ++ str_of_int (_merchant_id self) in
  sorted (keys payload) =
    ["amount"; "currency"; "email"; "i"; "ip"; "nonce"; "paymentId"; "shopId"] /\
  Sorted str_le (sorted (keys payload)) /\
  ~ In "signature" (sorted (keys payload)) /\
  signing_message payload = Ok message /\
  snd (api_create_order JSON loads transport self nonce i user_email user_ip
         payment_id amount currency n) =
    (n ++ [mkRequest (_api_url self ++ "orders/create")
             (payload ++
              [("signature",
                VStr (hexdigest (hmac.hmac_sha256 (encode key) (encode message))))])
             10])%list.
Proof.
  intros Hk Ht payload message.
  split; [reflexivity|].
  split; [apply sorted_Sorted|].
  split.
  { cbn. intros H. repeat (destruct H as [H | H]; [discriminate|]). exact H. }
  split; [reflexivity|].
  rewrite (api_create_order_run JSON loads transport self key nonce i
             user_email user_ip payment_id amount currency n Hk
             (truthy_some key Ht)).
  reflexivity.
Qed.

(** C4. Without an API key ([None], or the empty string, which the guard
    treats alike) both API methods raise the configuration error
    [RuntimeError('API key is not set')] and send nothing: the list of
    requests is the one they started from, whatever the remote end would
    have answered. *)
Theorem api_without_key_fails (self : FreeKassaClient) (nonce i : Z)
    (user_email user_ip payment_id : string) (amount : Decimal)
    (currency : string) (n : Net) :
  truthy (_api_key self) = false ->
  api_create_order JSON loads transport self nonce i user_email user_ip
    payment_id amount currency n
    = (Raise (RuntimeError "API key is not set"), n) /\
  api_get_order JSON loads transport self payment_id n
    = (Raise (RuntimeError "API key is not set"), n).
Proof.
  intros Hk. unfold api_create_order, api_get_order, bind.
  now rewrite (checked_api_key_unset self n Hk).
Qed.

(** C5. The two API methods treat the status of a response differently.
    Whatever the status of the response to its request, [api_create_order]
    returns what decoding the body gives (the decoded body, or
    [JSONDecodeError]); when the response to its request has a 4xx or 5xx
    status, [api_get_order] raises [HTTPError] and the decoder has no part
    in that result. *)
Theorem api_status_asymmetry (self : FreeKassaClient) (key : string)
    (nonce i : Z) (user_email user_ip payment_id : string) (amount : Decimal)
    (currency : string) (n : Net) :
  _api_key self = Some key ->
  truthy (Some key) = true ->
  (forall created : Response,
     transport n (create_order_request self key nonce i user_email user_ip
                    payment_id amount currency) = Ok created ->
     api_create_order JSON loads transport self nonce i user_email user_ip
       payment_id amount currency n
       = (match loads (text created) with
          | Some body => Ok body
          | None => Raise JSONDecodeError
          end,
          (n ++ [create_order_request self key nonce i user_email user_ip
                   payment_id amount currency])%list)) /\
  (forall fetched : Response,
     transport n (get_order_request self key payment_id) = Ok fetched ->
     400 <= status_code fetched < 600 ->
     api_get_order JSON loads transport self payment_id n
       = (Raise (HTTPError (status_code fetched)),
          (n ++ [get_order_request self key payment_id])%list)).
Proof.
  intros Hk Ht. split.
  - intros created Hc.
    rewrite (api_create_order_run JSON loads transport self key nonce i
               user_email user_ip payment_id amount currency n Hk
               (truthy_some key Ht)).
    cbv zeta. rewrite Hc. reflexivity.
  - intros fetched Hg Hs.
    rewrite (api_get_order_run JSON loads transport self key payment_id n Hk
               (truthy_some key Ht)).
    cbv zeta. rewrite Hg. cbn [bind_result]. unfold raise_for_status.
    replace (400 <=? status_code fetched) with true
      by (symmetry; apply Z.leb_le; lia).
    replace (status_code fetched <? 600) with true
      by (symmetry; apply Z.ltb_lt; lia).
    reflexivity.
Qed.


(** C8. Whatever the other arguments, a client built without [api_url] uses
    [https://api.fk.life/v1/] and one built without [ui_url] uses
    [https://pay.fk.money/]; a non-empty URL given at construction replaces
    the default.  The methods use the stored URLs: the checkout URL starts
    with the UI base, and with an API key set the two API methods post to
    the API base followed by [orders/create] and [orders]. *)
Theorem base_url_defaults (merchant_id : Z)
    (secret_word_1 secret_word_2 : string)
    (api_key success_url fail_url notify_url api_url ui_url : option string)
    (nonce : option Z) (amount : Decimal) (currency payment_id : string)
    (payment_method_id order_nonce : Z) (user_email user_ip : string)
    (n : Net) :
  let self :=
    __init__ merchant_id secret_word_1 secret_word_2 api_key success_url
      fail_url notify_url api_url ui_url nonce in
  (api_url = None -> _api_url self = "https://api.fk.life/v1/") /\
  (ui_url = None -> _ui_url self = "https://pay.fk.money/") /\
  (forall u, api_url = Some u -> truthy (Some u) = true -> _api_url self = u) /\
  (forall u, ui_url = Some u -> truthy (Some u) = true -> _ui_url self = u) /\
  ui_create_order self amount currency payment_id payment_method_id =
    _ui_url self ++ "?" ++
    checkout_query self amount currency payment_id payment_method_id /\
  (forall key, api_key = Some key -> truthy (Some key) = true ->
     map url (snd (api_create_order JSON loads transport self order_nonce
                     payment_method_id user_email user_ip payment_id amount
                     currency n))
       = (map url n ++ [(_api_url self ++ "orders/create")%string])%list /\
     map url (snd (api_get_order JSON loads transport self payment_id n))
       = (map url n ++ [(_api_url self ++ "orders")%string])%list).
Proof.
  intros self.
  split; [intros ->; reflexivity|].
  split; [intros ->; reflexivity|].
  split.
  { intros u -> Hu. apply (assign_if_set_some u _ (truthy_some u Hu)). }
  split.
  { intros u -> Hu. apply (assign_if_set_some u _ (truthy_some u Hu)). }
  split; [apply ui_create_order_url|].
  intros key Hkey Ht.
  assert (Hk : _api_key self = Some key) by (subst api_key; reflexivity).
  split.
  - rewrite (api_create_order_run JSON loads transport self key order_nonce
               payment_method_id user_email user_ip payment_id amount
               currency n Hk (truthy_some key Ht)).
    cbv zeta. cbn [snd]. rewrite map_app. reflexivity.
  - rewrite (api_get_order_run JSON loads transport self key payment_id n Hk
               (truthy_some key Ht)).
    cbv zeta. cbn [snd]. rewrite map_app. reflexivity.
Qed.

End Claims.

(** ** The theorems above at concrete inputs *)

Module Witnesses.

Import Py Spec decimal urllib requests hashlib.

Lemma api_create_order_signing_witness :
  _api_key client = Some "962c879ce9be06f9d34a556872869220" /\
  map (fun rq => (url rq, getitem (json rq) "signature"))
    (snd (api_create_order string raw_loads
            (fixed_transport (Ok (mkResponse 200 "{}"))) client 1 4 "a@b.c"
            "127.0.0.1" "order-1" (mkDecimal false 10000 (-2)) "RUB" [])) =
  [("https://api.fk.life/v1/orders/create",
    Some (VStr
      "2eab35be9bb44d4a5d4bfc26ed26eafe77681173a7752b6b0fc9f9bd53701bfc"))].
Proof.
  split; [reflexivity|].
  destruct (api_create_order_signing string raw_loads
              (fixed_transport (Ok (mkResponse 200 "{}"))) client
              "962c879ce9be06f9d34a556872869220" 1 4 "a@b.c" "127.0.0.1"
              "order-1" (mkDecimal false 10000 (-2)) "RUB" []
              eq_refl eq_refl) as (_ & _ & _ & _ & H).
  rewrite H. vm_compute. reflexivity.
Defined.

Lemma api_without_key_fails_witness :
  _api_key client_without_key = None /\
  api_get_order string raw_loads (fixed_transport (Ok (mkResponse 200 "{}")))
    client_without_key "order-1" []
    = (Raise (RuntimeError "API key is not set"), []).
Proof.
  split; [reflexivity|].
  apply (api_without_key_fails string raw_loads
           (fixed_transport (Ok (mkResponse 200 "{}"))) client_without_key
           1 4 "a@b.c" "127.0.0.1" "order-1" (mkDecimal false 10000 (-2))
           "RUB" [] eq_refl).
Defined.


Lemma api_status_asymmetry_witness :
  fst (api_create_order string raw_loads
         (fixed_transport (Ok (mkResponse 404 "not found"))) client 1 4
         "a@b.c" "127.0.0.1" "order-1" (mkDecimal false 10000 (-2)) "RUB" [])
    = Ok "not found" /\
  fst (api_create_order string raw_loads
         (fixed_transport (Ok (mkResponse 500 ""))) client 1 4
         "a@b.c" "127.0.0.1" "order-1" (mkDecimal false 10000 (-2)) "RUB" [])
    = Raise JSONDecodeError /\
  fst (api_get_order string raw_loads
         (fixed_transport (Ok (mkResponse 404 "not found"))) client "order-1" [])
    = Raise (HTTPError 404) /\
  fst (api_get_order string raw_loads
         (fixed_transport (Ok (mkResponse 599 "{}"))) client "order-1" [])
    = Raise (HTTPError 599).
Proof.
  destruct (api_status_asymmetry string raw_loads
              (fixed_transport (Ok (mkResponse 404 "not found"))) client
              "962c879ce9be06f9d34a556872869220" 1 4 "a@b.c" "127.0.0.1"
              "order-1" (mkDecimal false 10000 (-2)) "RUB" []
              eq_refl eq_refl) as [Hc Hg].
  destruct (api_status_asymmetry string raw_loads
              (fixed_transport (Ok (mkResponse 500 ""))) client
              "962c879ce9be06f9d34a556872869220" 1 4 "a@b.c" "127.0.0.1"
              "order-1" (mkDecimal false 10000 (-2)) "RUB" []
              eq_refl eq_refl) as [Hc' _].
  destruct (api_status_asymmetry string raw_loads
              (fixed_transport (Ok (mkResponse 599 "{}"))) client
              "962c879ce9be06f9d34a556872869220" 1 4 "a@b.c" "127.0.0.1"
              "order-1" (mkDecimal false 10000 (-2)) "RUB" []
              eq_refl eq_refl) as [_ Hg'].
  rewrite (Hc (mkResponse 404 "not found") eq_refl).
  rewrite (Hc' (mkResponse 500 "") eq_refl).
  rewrite (Hg (mkResponse 404 "not found") eq_refl ltac:(simpl; lia)).
  rewrite (Hg' (mkResponse 599 "{}") eq_refl ltac:(simpl; lia)).
  repeat split.
Defined.

Lemma base_url_defaults_witness :
  _api_url client_without_key = "https://api.fk.life/v1/" /\
  _ui_url client_without_key = "https://pay.fk.money/" /\
  _api_url (__init__ 66058 "s1" "s2" None None None None
              (Some "http://localhost:8080/") (Some "http://localhost/pay") None)
    = "http://localhost:8080/" /\
  _ui_url (__init__ 66058 "s1" "s2" None None None None
             (Some "http://localhost:8080/") (Some "http://localhost/pay") None)
    = "http://localhost/pay" /\
  map url (snd (api_get_order string raw_loads
                  (fixed_transport (Ok (mkResponse 200 "{}")))
                  (__init__ 66058 "s1" "s2" (Some "k") None None None
                     (Some "http://localhost:8080/")
                     (Some "http://localhost/pay") None) "order-1" []))
    = ["http://localhost:8080/orders"].
Proof.
  destruct (base_url_defaults string raw_loads
              (fixed_transport (Ok (mkResponse 200 "{}"))) 66058
              "2aJ0hR?0Z-[=VJ6" "Hs)D3l&hb4(?xFf"
              None None None None None None None
              (mkDecimal false 10000 (-2)) "RUB" "order-1" 4 1 "a@b.c"
              "127.0.0.1" []) as (Ha & Hu & _).
  destruct (base_url_defaults string raw_loads
              (fixed_transport (Ok (mkResponse 200 "{}"))) 66058 "s1" "s2"
              None None None None (Some "http://localhost:8080/")
              (Some "http://localhost/pay") None
              (mkDecimal false 10000 (-2)) "RUB" "order-1" 4 1 "a@b.c"
              "127.0.0.1" []) as (_ & _ & Hs & Hv & _).
  destruct (base_url_defaults string raw_loads
              (fixed_transport (Ok (mkResponse 200 "{}"))) 66058 "s1" "s2"
              (Some "k") None None None (Some "http://localhost:8080/")
              (Some "http://localhost/pay") None
              (mkDecimal false 10000 (-2)) "RUB" "order-1" 4 1 "a@b.c"
              "127.0.0.1" []) as (_ & _ & _ & _ & _ & Hapi).
  split; [exact (Ha eq_refl)|].
  split; [exact (Hu eq_refl)|].
  split; [exact (Hs _ eq_refl eq_refl)|].
  split; [exact (Hv _ eq_refl eq_refl)|].
  destruct (Hapi "k" eq_refl eq_refl) as [_ Hg].
  rewrite Hg. reflexivity.
Defined.

End Witnesses.

(** * Further properties of the code *)

(** ** The order of strings, and what [sorted] returns *)

Module OrderFacts.

Import Py Spec PyFacts.

Ltac ascii_order :=
  repeat match goal with
         | H : Ascii.compare _ _ = Eq |- _ => apply Ascii.compare_eq_iff in H; subst
         | H : Ascii.compare _ _ = Lt |- _ =>
             unfold Ascii.compare in H; apply -> N.compare_lt_iff in H
         | H : Ascii.compare _ _ = Gt |- _ =>
             unfold Ascii.compare in H; apply -> N.compare_gt_iff in H
         end.

Lemma ascii_compare_refl (a : ascii) : Ascii.compare a a = Eq.
Proof. unfold Ascii.compare. apply N.compare_refl. Qed.

Lemma str_le_trans (s1 s2 s3 : string) :
  str_le s1 s2 -> str_le s2 s3 -> str_le s1 s3.
Proof.
  unfold str_le, String.leb.
  revert s2 s3. induction s1 as [|c1 r1 IH]; intros [|c2 r2] [|c3 r3];
    cbn [String.compare]; try congruence; try reflexivity.
  destruct (Ascii.compare c1 c2) eqn:E12; try discriminate;
    destruct (Ascii.compare c2 c3) eqn:E23; try discriminate;
    destruct (Ascii.compare c1 c3) eqn:E13; intros H1 H2;
    try reflexivity; ascii_order;
    try (rewrite ascii_compare_refl in *; discriminate);
    try (exfalso; lia).
  now apply (IH r2 r3).
Qed.

Lemma sorted_StronglySorted (l : list string) :
  StronglySorted str_le (sorted l).
Proof.
  apply Sorted_StronglySorted; [|apply sorted_Sorted].
  intros a b c. apply str_le_trans.
Qed.

(** Two ascending lists with the same elements are the same list. *)
Lemma ascending_unique (l1 l2 : list string) :
  StronglySorted str_le l1 -> StronglySorted str_le l2 ->
  Permutation l1 l2 -> l1 = l2.
Proof.
  revert l2. induction l1 as [|x r1 IH]; intros l2 H1 H2 HP.
  - apply Permutation_nil in HP. now subst.
  - destruct l2 as [|y r2].
    + apply Permutation_sym, Permutation_nil in HP. discriminate.
    + inversion H1 as [|? ? Hs1 Hx]; subst.
      inversion H2 as [|? ? Hs2 Hy]; subst.
      assert (Exy : x = y).
      { assert (Hin1 : In x (y :: r2))
          by (apply (Permutation_in _ HP); now left).
        assert (Hin2 : In y (x :: r1))
          by (apply (Permutation_in _ (Permutation_sym HP)); now left).
        destruct Hin1 as [-> | Hin1]; [reflexivity|].
        destruct Hin2 as [-> | Hin2]; [reflexivity|].
        rewrite Forall_forall in Hx, Hy.
        apply String.leb_antisym; [now apply Hx | now apply Hy]. }
      subst y. f_equal. apply IH; try assumption.
      now apply Permutation_cons_inv in HP.
Qed.

(** [sorted] does not depend on the order of its input. *)
Lemma sorted_permutation (l1 l2 : list string) :
  Permutation l1 l2 -> sorted l1 = sorted l2.
Proof.
  intros HP. apply ascending_unique; try apply sorted_StronglySorted.
  rewrite <- (sorted_perm l1), <- (sorted_perm l2). exact HP.
Qed.

Lemma getitem_none (d : dict) (k : string) :
  ~ In k (keys d) -> getitem d k = None.
Proof.
  induction d as [|[k' v'] r IH]; cbn [getitem keys map fst In]; [reflexivity|].
  intros Hn. destruct (String.eqb k k') eqn:E.
  - apply String.eqb_eq in E. subst. tauto.
  - apply IH. tauto.
Qed.

(** On a [dict] whose keys are distinct, a lookup does not depend on the
    order of the entries. *)
Lemma getitem_permutation (d1 d2 : dict) (k : string) :
  NoDup (keys d1) -> Permutation d1 d2 -> getitem d1 k = getitem d2 k.
Proof.
  intros Hnd HP. induction HP as [|[k' v'] r1 r2 HP IH
                                  |[k1 v1] [k2 v2] r
                                  |r1 r2 r3 HP1 IH1 HP2 IH2].
  - reflexivity.
  - cbn [getitem]. destruct (String.eqb k k'); [reflexivity|].
    apply IH. now inversion Hnd.
  - cbn [getitem].
    destruct (String.eqb k k1) eqn:E1, (String.eqb k k2) eqn:E2;
      try reflexivity.
    apply String.eqb_eq in E1, E2. subst.
    inversion Hnd as [|? ? Hn _]; subst. exfalso. apply Hn. now left.
  - rewrite IH1 by assumption. apply IH2.
    unfold keys. apply (Permutation_NoDup (Permutation_map fst HP1)). exact Hnd.
Qed.

End OrderFacts.

(** ** Reading a query string back *)

Module DecodeFacts.

Import Py Spec PyFacts LibFacts QueryFacts urllib.

Lemma quote_space_step (a : ascii) (t : string) :
  replace_space
    (if always_safe a || occurs a " " then String a t else percent a ++ t)
  = quote_char a ++ replace_space t.
Proof. destruct a as [[] [] [] [] [] [] [] []]; reflexivity. Qed.

Lemma quote_empty_step (a : ascii) (t : string) :
  Ascii.eqb " " a = false ->
  (if always_safe a || occurs a "" then String a t else percent a ++ t)
  = quote_char a ++ t.
Proof.
  destruct a as [[] [] [] [] [] [] [] []]; intros H;
    first [reflexivity | cbv in H; discriminate].
Qed.

Lemma quote_space_chars_of (s : string) :
  replace_space (quote " " s) = quote_chars_of s.
Proof.
  induction s as [|a r IH]; cbn [quote quote_chars_of]; [reflexivity|].
  now rewrite quote_space_step, IH.
Qed.

Lemma quote_empty_chars_of (s : string) :
  occurs " " s = false -> quote "" s = quote_chars_of s.
Proof.
  induction s as [|a r IH]; cbn [quote quote_chars_of occurs]; [reflexivity|].
  intros H. apply orb_false_iff in H as [Ha Hr].
  now rewrite quote_empty_step, IH.
Qed.

(** [quote_plus] works character by character. *)
Lemma quote_plus_chars_of (s : string) : quote_plus s = quote_chars_of s.
Proof.
  unfold quote_plus. destruct (occurs " " s) eqn:E.
  - apply quote_space_chars_of.
  - now apply quote_empty_chars_of.
Qed.

Lemma unquote_plus_step (a : ascii) (t : string) :
  unquote_plus (quote_char a ++ t) = String a (unquote_plus t).
Proof. destruct a as [[] [] [] [] [] [] [] []]; reflexivity. Qed.

(** [unquote_plus] undoes [quote_plus]. *)
Lemma unquote_plus_quote_plus (s : string) : unquote_plus (quote_plus s) = s.
Proof.
  rewrite quote_plus_chars_of.
  induction s as [|a r IH]; cbn [quote_chars_of]; [reflexivity|].
  now rewrite unquote_plus_step, IH.
Qed.

Lemma after_equals_pair (k v : string) :
  all_chars not_amp_eq k = true -> after_equals (k ++ String "=" v) = v.
Proof.
  induction k as [|c k' IH]; cbn [String.append after_equals all_chars].
  - intros _. reflexivity.
  - intros H. apply andb_true_iff in H as [Hc Hk].
    unfold not_amp_eq in Hc. apply andb_true_iff in Hc as [_ Hc].
    apply negb_true_iff in Hc. rewrite Hc. now apply IH.
Qed.

(** Splitting on [&] undoes joining with [&] when no piece holds one. *)
Lemma split_on_join (pieces : list string) :
  pieces <> [] ->
  Forall (fun p => all_chars not_amp p = true) pieces ->
  split_on "&" (join "&" pieces) = pieces.
Proof.
  induction pieces as [|p r IH]; [congruence|].
  intros _ HF. inversion HF as [|? ? Hp Hr]; subst.
  destruct r as [|p' r'].
  - cbn [join]. now apply split_on_last.
  - change (join "&" (p :: p' :: r')) with (p ++ String "&" (join "&" (p' :: r'))).
    rewrite split_on_piece by assumption.
    f_equal. apply IH; [congruence | assumption].
Qed.

(** Decoding [urlencode(d)] gives the keys and the stringified values of
    [d], in the order of [d]. *)
Lemma decode_query_urlencode (d : dict) :
  d <> [] ->
  decode_query (urlencode d) = map (fun kv => (fst kv, str (snd kv))) d.
Proof.
  intros Hd. unfold decode_query, urlencode.
  rewrite split_on_join.
  - rewrite map_map. apply map_ext. intros [k v]. cbn [fst snd].
    assert (Hk : all_chars not_amp_eq (quote_plus k) = true).
    { apply all_chars_weaken with (2 := quote_plus_chars k).
      apply is_quoted_not_amp_eq. }
    change (quote_plus k ++ "=" ++ quote_plus (str v))
      with (quote_plus k ++ String "=" (quote_plus (str v))).
    rewrite before_equals_pair, after_equals_pair by assumption.
    now rewrite !unquote_plus_quote_plus.
  - destruct d; [congruence | discriminate].
  - apply Forall_map, Forall_forall. intros [k v] _. cbn [fst snd].
    apply pair_not_amp;
      apply all_chars_weaken with (2 := quote_plus_chars _);
      apply is_quoted_not_amp_eq.
Qed.

End DecodeFacts.

(** ** Sizes of the digests, and more on formatting *)

Module SizeFacts.

Import Py Spec PyFacts LibFacts FormatFacts hashlib decimal.

Lemma lower_length (s : string) : String.length (lower s) = String.length s.
Proof. induction s as [|a r IH]; simpl; [reflexivity | now rewrite IH]. Qed.

Lemma string_app_assoc (s t u : string) : (s ++ t) ++ u = s ++ (t ++ u).
Proof. induction s as [|a r IH]; simpl; [reflexivity | now rewrite IH]. Qed.

Lemma sha256_round_length (W st : list Z) (i : nat) :
  List.length st = 8%nat -> List.length (sha256_round W st i) = 8%nat.
Proof.
  intros H.
  destruct st as [|a [|b [|c [|d [|e [|f [|g [|h [|x r]]]]]]]]];
    try (simpl in H; discriminate H).
  reflexivity.
Qed.

Lemma sha256_rounds_length (W : list Z) (l : list nat) (st : list Z) :
  List.length st = 8%nat ->
  List.length (fold_left (sha256_round W) l st) = 8%nat.
Proof.
  revert st. induction l as [|i r IH]; intros st H; cbn [fold_left].
  - exact H.
  - apply IH. now apply sha256_round_length.
Qed.

Lemma sha256_block_length (st : list Z) (blk : bytes) :
  List.length st = 8%nat -> List.length (sha256_block st blk) = 8%nat.
Proof.
  intros H. unfold sha256_block.
  rewrite length_map, length_combine, sha256_rounds_length by assumption.
  rewrite H. reflexivity.
Qed.

(** A SHA-256 digest has 32 bytes. *)
Lemma sha256_length (data : bytes) : List.length (sha256 data) = 32%nat.
Proof.
  unfold sha256.
  assert (H : List.length (fold_left sha256_block
                (split_every 64 (pad (be_bytes 8) data)) sha256_init) = 8%nat).
  { generalize (split_every 64 (pad (be_bytes 8) data)).
    assert (H0 : List.length sha256_init = 8%nat) by reflexivity.
    revert H0. generalize sha256_init.
    intros st H0 l. revert st H0.
    induction l as [|b r IH]; intros st H0; cbn [fold_left]; [exact H0|].
    apply IH. now apply sha256_block_length. }
  revert H. generalize (fold_left sha256_block
                          (split_every 64 (pad (be_bytes 8) data)) sha256_init).
  intros l.
  assert (G : List.length (flat_map (be_bytes 4) l) = (4 * List.length l)%nat).
  { induction l as [|w r IH]; [reflexivity|].
    change (flat_map (be_bytes 4) (w :: r))
      with ((be_bytes 4 w ++ flat_map (be_bytes 4) r)%list).
    rewrite length_app, IH. unfold be_bytes.
    rewrite length_rev, le_bytes_length. cbn [List.length]. lia. }
  intros H. rewrite G, H. reflexivity.
Qed.

(** The two hexadecimal signatures of the client have a fixed width. *)
Lemma md5hex_length (data : string) : String.length (__md5hex data) = 32%nat.
Proof. unfold __md5hex. now rewrite hexdigest_length, md5_length. Qed.

Lemma hmac_sha256_hex_length (message key : string) :
  String.length (__hmac_sha256_hex message key) = 64%nat.
Proof.
  unfold __hmac_sha256_hex, hmac.hmac_sha256.
  now rewrite hexdigest_length, sha256_length.
Qed.

Lemma hmac_sha256_hex_chars (message key : string) :
  all_chars is_lower_hex (__hmac_sha256_hex message key) = true.
Proof.
  unfold __hmac_sha256_hex. apply hexdigest_chars, hmac_sha256_range.
Qed.

(** Rounding half-even depends on the fraction, not on how it is written. *)
Lemma round_half_even_fraction (n1 d1 n2 d2 q : Z) :
  0 < d1 -> 0 < d2 -> n1 * d2 = n2 * d1 ->
  round_half_even n1 d1 q -> round_half_even n2 d2 q.
Proof.
  intros H1 H2 Hf [Hle Htie]. unfold round_half_even.
  assert (E : Z.abs (n2 - q * d2) * d1 = Z.abs (n1 - q * d1) * d2).
  { rewrite <- (Z.abs_eq d1) at 2 by lia.
    rewrite <- (Z.abs_eq d2) at 2 by lia.
    rewrite <- !Z.abs_mul. f_equal. nia. }
  set (A := Z.abs (n1 - q * d1)) in *.
  set (B := Z.abs (n2 - q * d2)) in *.
  split.
  - nia.
  - intros T. apply Htie. nia.
Qed.

Lemma hundredths_den_pos (d : Decimal) : 0 < snd (hundredths d).
Proof.
  unfold hundredths. destruct (-2 <=? exponent d) eqn:E; cbn [snd].
  - lia.
  - apply Z.leb_gt in E. apply Z.pow_pos_nonneg; lia.
Qed.

(** Two decimals that denote the same fraction of hundredths rescale to the
    same coefficient. *)
Lemma rescale2_same_value (d1 d2 : Decimal) :
  fst (hundredths d1) * snd (hundredths d2) =
    fst (hundredths d2) * snd (hundredths d1) ->
  rescale2 d1 = rescale2 d2.
Proof.
  intros H.
  apply (round_half_even_unique (fst (hundredths d2)) (snd (hundredths d2))).
  - apply hundredths_den_pos.
  - apply (round_half_even_fraction (fst (hundredths d1)) (snd (hundredths d1)));
      try apply hundredths_den_pos; [exact H|].
    apply rescale2_round_half_even.
  - apply rescale2_round_half_even.
Qed.

End SizeFacts.

(** ** Properties of the four methods *)

Section Extras.

Import Py Spec PyFacts LibFacts FormatFacts QueryFacts PureFacts.
Import OrderFacts DecodeFacts SizeFacts.
Import decimal urllib requests hashlib.

Variable JSON : Type.
Variable loads : string -> option JSON.
Variable transport : Net -> Request -> result Response.

Lemma truthy_nonempty (key : string) : truthy (Some key) = true -> key <> "".
Proof.
  unfold truthy. intros H. apply negb_true_iff in H. now apply String.eqb_neq.
Qed.

Lemma create_request_signature (self : FreeKassaClient) (key : string)
    (nonce i : Z) (user_email user_ip payment_id : string) (amount : Decimal)
    (currency : string) :
  getitem (json (create_order_request self key nonce i user_email user_ip
                   payment_id amount currency)) "signature"
  = Some (VStr (__hmac_sha256_hex
                  (create_message self nonce i user_email user_ip payment_id
                     amount currency) key)).
Proof. reflexivity. Qed.

Lemma get_request_signature (self : FreeKassaClient) (key payment_id : string) :
  getitem (json (get_order_request self key payment_id)) "signature"
  = Some (VStr (__hmac_sha256_hex (get_message self payment_id) key)).
Proof. reflexivity. Qed.

(** X2. A signature that is not 32 characters long is rejected, the empty
    signature among them; an accepted signature is made of hexadecimal
    digits once lowercased. *)
Theorem verify_notify_rejects_other_lengths (self : FreeKassaClient)
    (amount order_id sign : string) :
  (String.length sign <> 32%nat ->
   verify_notify self amount order_id sign = false) /\
  (verify_notify self amount order_id sign = true ->
   all_chars is_lower_hex (lower sign) = true) /\
  verify_notify self amount order_id "" = false.
Proof.
  assert (G : forall s, verify_notify self amount order_id s = true ->
                        String.length s = 32%nat /\
                        all_chars is_lower_hex (lower s) = true).
  { intros s H. unfold verify_notify in H. apply String.eqb_eq in H.
    rewrite md5hex_lower in H. split.
    - rewrite <- (lower_length s), <- H. apply md5hex_length.
    - rewrite <- H. unfold __md5hex. apply hexdigest_chars, md5_range. }
  split; [|split].
  - intros Hlen.
    destruct (verify_notify self amount order_id sign) eqn:E; [|reflexivity].
    exfalso. apply Hlen. now apply G.
  - intros H. now apply G.
  - destruct (verify_notify self amount order_id "") eqn:E; [|reflexivity].
    apply G in E. destruct E as [E _]. discriminate E.
Qed.

(** X3. The signed strings do not mark where a field ends.  Moving text
    across the colon between [currency] and [payment_id] leaves the
    signature of the checkout URL unchanged; moving text across the bar
    between [currency] and [email] leaves the signature that
    [api_create_order] sends unchanged. *)
Theorem signed_fields_can_shift (self : FreeKassaClient) (key : string)
    (amount : Decimal) (a b c : string) (nonce i : Z)
    (user_ip payment_id : string) (n : Net) :
  _api_key self = Some key ->
  truthy (Some key) = true ->
  ui_create_order self amount (a ++ ":" ++ b) c i =
    _ui_url self ++ "?" ++ checkout_query self amount (a ++ ":" ++ b) c i /\
  ui_create_order self amount a (b ++ ":" ++ c) i =
    _ui_url self ++ "?" ++ checkout_query self amount a (b ++ ":" ++ c) i /\
  checkout_signature self amount (a ++ ":" ++ b) c =
    checkout_signature self amount a (b ++ ":" ++ c) /\
  map (fun rq => getitem (json rq) "signature")
    (snd (api_create_order JSON loads transport self nonce i c user_ip
            payment_id amount (a ++ "|" ++ b) n)) =
  map (fun rq => getitem (json rq) "signature")
    (snd (api_create_order JSON loads transport self nonce i (b ++ "|" ++ c)
            user_ip payment_id amount a n)).
Proof.
  intros Hk Ht.
  split; [apply ui_create_order_url|].
  split; [apply ui_create_order_url|].
  split.
  - unfold checkout_signature. do 3 f_equal.
    rewrite !string_app_assoc. reflexivity.
  - rewrite !(api_create_order_run JSON loads transport self key) by
      (try assumption; now apply truthy_nonempty).
    cbv zeta. cbn [snd]. rewrite !map_app. f_equal. cbn [map].
    rewrite !create_request_signature. do 4 f_equal.
    unfold create_message. f_equal. rewrite !string_app_assoc. reflexivity.
Qed.

(** X4. The signing message of a payload with distinct keys does not depend
    on the order in which the fields were put in, and building it never
    raises [KeyError]. *)
Theorem signing_message_order_free (d1 d2 : dict) :
  NoDup (keys d1) -> Permutation d1 d2 ->
  signing_message d1 = signing_message d2 /\
  exists message, signing_message d1 = Ok message.
Proof.
  intros Hnd HP. split.
  - unfold signing_message.
    rewrite (sorted_permutation (keys d1) (keys d2))
      by (unfold keys; now apply Permutation_map).
    f_equal. generalize (sorted (keys d2)). intros l.
    induction l as [|k r IH]; cbn [map_result]; [reflexivity|].
    now rewrite (getitem_permutation d1 d2 k Hnd HP), IH.
  - unfold signing_message.
    assert (H : forall l, (forall k, In k l -> In k (keys d1)) ->
              exists parts,
                map_result
                  (fun k => match getitem d1 k with
                            | Some v => Ok (str v)
                            | None => Raise (KeyError k)
                            end) l = Ok parts).
    { induction l as [|k r IH]; intros Hin; cbn [map_result].
      - now exists [].
      - destruct (getitem_keys d1 k (Hin k (or_introl eq_refl))) as [v Hv].
        rewrite Hv. cbn [bind_result].
        destruct IH as [ps Hps]; [intros z Hz; apply Hin; now right|].
        rewrite Hps. cbn [bind_result]. now exists (str v :: ps). }
    destruct (H (sorted (keys d1))) as [parts Hp].
    + intros k Hk.
      now apply (Permutation_in _ (Permutation_sym (sorted_perm _))).
    + rewrite Hp. cbn [bind_result]. now exists (join "|" parts).
Qed.

(** X5. The request of either API method carries the signature as its last
    field, 64 lowercase hexadecimal digits long, leaves every other field
    of the payload as it was, and is sent with a timeout of 10 seconds. *)
Theorem api_signature_field (self : FreeKassaClient) (key : string)
    (nonce i : Z) (user_email user_ip payment_id : string) (amount : Decimal)
    (currency : string) (n : Net) :
  _api_key self = Some key ->
  truthy (Some key) = true ->
  (exists rq sig,
     snd (api_create_order JSON loads transport self nonce i user_email
            user_ip payment_id amount currency n) = (n ++ [rq])%list /\
     keys (json rq) =
       ["shopId"; "nonce"; "amount"; "currency"; "paymentId"; "ip"; "email";
        "i"; "signature"] /\
     getitem (json rq) "signature" = Some (VStr sig) /\
     String.length sig = 64%nat /\ all_chars is_lower_hex sig = true /\
     (forall k, k <> "signature" ->
        getitem (json rq) k =
        getitem (create_payload self nonce i user_email user_ip payment_id
                   amount currency) k) /\
     timeout rq = 10) /\
  (exists rq sig,
     snd (api_get_order JSON loads transport self payment_id n)
       = (n ++ [rq])%list /\
     keys (json rq) = ["shopId"; "nonce"; "paymentId"; "signature"] /\
     getitem (json rq) "signature" = Some (VStr sig) /\
     String.length sig = 64%nat /\ all_chars is_lower_hex sig = true /\
     (forall k, k <> "signature" ->
        getitem (json rq) k = getitem (get_payload self payment_id) k) /\
     timeout rq = 10).
Proof.
  intros Hk Ht. pose proof (truthy_nonempty key Ht) as Hne.
  assert (Hother : forall (d : dict) v k, k <> "signature" ->
            getitem (d ++ [("signature", v)])%list k = getitem d k).
  { intros d v k Hks. induction d as [|[k' v'] r IH]; cbn [getitem app].
    - apply String.eqb_neq in Hks. now rewrite Hks.
    - now rewrite IH. }
  split.
  - exists (create_order_request self key nonce i user_email user_ip
              payment_id amount currency),
           (__hmac_sha256_hex (create_message self nonce i user_email user_ip
                                 payment_id amount currency) key).
    split.
    { now rewrite (api_create_order_run JSON loads transport self key nonce i
                     user_email user_ip payment_id amount currency n Hk Hne). }
    split; [reflexivity|].
    split; [apply create_request_signature|].
    split; [apply hmac_sha256_hex_length|].
    split; [apply hmac_sha256_hex_chars|].
    split; [|reflexivity].
    intros k Hks. unfold create_order_request. cbn [json]. now apply Hother.
  - exists (get_order_request self key payment_id),
           (__hmac_sha256_hex (get_message self payment_id) key).
    split.
    { now rewrite (api_get_order_run JSON loads transport self key payment_id
                     n Hk Hne). }
    split; [reflexivity|].
    split; [apply get_request_signature|].
    split; [apply hmac_sha256_hex_length|].
    split; [apply hmac_sha256_hex_chars|].
    split; [|reflexivity].
    intros k Hks. unfold get_order_request. cbn [json]. now apply Hother.
Qed.

(** X6. For a response whose status is outside 400..599 (1xx, 2xx, 3xx, or
    600 and above) [api_get_order] does not raise [HTTPError]: it returns
    the decoded body, or raises [JSONDecodeError] when the body is not
    JSON. *)
Theorem api_get_order_other_status (self : FreeKassaClient)
    (key payment_id : string) (n : Net) (r : Response) :
  _api_key self = Some key ->
  truthy (Some key) = true ->
  transport n (get_order_request self key payment_id) = Ok r ->
  status_code r < 400 \/ 600 <= status_code r ->
  api_get_order JSON loads transport self payment_id n
    = (match loads (text r) with
       | Some body => Ok body
       | None => Raise JSONDecodeError
       end,
       (n ++ [get_order_request self key payment_id])%list).
Proof.
  intros Hk Ht Hr Hs.
  rewrite (api_get_order_run JSON loads transport self key payment_id n Hk
             (truthy_nonempty key Ht)).
  cbv zeta. rewrite Hr. cbn [bind_result].
  rewrite raise_for_status_ok by lia. reflexivity.
Qed.

(** X7. When the transport itself fails (no connection, timeout), both API
    methods raise that same exception; the request counts as sent and no
    body is decoded. *)
Theorem api_transport_failure (self : FreeKassaClient) (key : string)
    (nonce i : Z) (user_email user_ip payment_id : string) (amount : Decimal)
    (currency : string) (n : Net) (e1 e2 : exn) :
  _api_key self = Some key ->
  truthy (Some key) = true ->
  transport n (create_order_request self key nonce i user_email user_ip
                 payment_id amount currency) = Raise e1 ->
  transport n (get_order_request self key payment_id) = Raise e2 ->
  api_create_order JSON loads transport self nonce i user_email user_ip
    payment_id amount currency n
    = (Raise e1,
       (n ++ [create_order_request self key nonce i user_email user_ip
                payment_id amount currency])%list) /\
  api_get_order JSON loads transport self payment_id n
    = (Raise e2, (n ++ [get_order_request self key payment_id])%list).
Proof.
  intros Hk Ht H1 H2. pose proof (truthy_nonempty key Ht) as Hne. split.
  - rewrite (api_create_order_run JSON loads transport self key nonce i
               user_email user_ip payment_id amount currency n Hk Hne).
    cbv zeta. now rewrite H1.
  - rewrite (api_get_order_run JSON loads transport self key payment_id n
               Hk Hne).
    cbv zeta. now rewrite H2.
Qed.

(** X9. The query of the checkout URL reads back, through [unquote_plus], as
    the six parameters with exactly the values that were signed, whatever
    characters the currency and the payment id contain. *)
Theorem checkout_query_round_trip (self : FreeKassaClient) (amount : Decimal)
    (currency payment_id : string) (payment_method_id : Z) :
  exists query,
    ui_create_order self amount currency payment_id payment_method_id =
      _ui_url self ++ "?" ++ query /\
    decode_query query =
      [ ("m", str_of_int (_merchant_id self));
        ("oa", format_2f amount);
        ("currency", currency);
        ("o", payment_id);
        ("s", __md5hex (str_of_int (_merchant_id self) ++ ":" ++
                        format_2f amount ++ ":" ++ _secret1 self ++ ":" ++
                        currency ++ ":" ++ payment_id));
        ("i", str_of_int payment_method_id) ].
Proof.
  eexists. split; [reflexivity|].
  rewrite decode_query_urlencode by discriminate. reflexivity.
Qed.

(** X10. Trailing zeros of a [Decimal] do not show: [c * 10^k] with exponent
    [e - k] is formatted, signed and sent like [c] with exponent [e], so
    [Decimal('100')] and [Decimal('100.00')] give the same checkout URL. *)
Theorem format_2f_trailing_zeros (self : FreeKassaClient) (s : bool) (c k : N)
    (e : Z) (currency payment_id : string) (payment_method_id : Z) :
  format_2f (mkDecimal s (c * 10 ^ k) (e - Z.of_N k)) =
    format_2f (mkDecimal s c e) /\
  ui_create_order self (mkDecimal s (c * 10 ^ k) (e - Z.of_N k)) currency
      payment_id payment_method_id =
    ui_create_order self (mkDecimal s c e) currency payment_id
      payment_method_id.
Proof.
  assert (Hq : rescale2 (mkDecimal s (c * 10 ^ k) (e - Z.of_N k)) =
               rescale2 (mkDecimal s c e)).
  { apply rescale2_same_value. unfold hundredths.
    cbn [coefficient exponent].
    rewrite N2Z.inj_mul, N2Z.inj_pow. change (Z.of_N 10) with 10.
    pose proof (N2Z.is_nonneg k) as Hk.
    destruct (-2 <=? e - Z.of_N k) eqn:E1; destruct (-2 <=? e) eqn:E2;
      cbn [fst snd];
      try apply Z.leb_le in E1; try apply Z.leb_gt in E1;
      try apply Z.leb_le in E2; try apply Z.leb_gt in E2; try lia.
    - rewrite !Z.mul_1_r, <- Z.mul_assoc, <- Z.pow_add_r by lia.
      do 2 f_equal. lia.
    - rewrite Z.mul_1_r, <- Z.mul_assoc, <- Z.pow_add_r by lia.
      do 2 f_equal. lia.
    - rewrite <- !Z.mul_assoc, <- Z.pow_add_r by lia.
      do 2 f_equal. lia. }
  assert (Hf : format_2f (mkDecimal s (c * 10 ^ k) (e - Z.of_N k)) =
               format_2f (mkDecimal s c e)).
  { unfold format_2f. rewrite Hq. reflexivity. }
  split; [exact Hf|].
  unfold ui_create_order. rewrite Hf. reflexivity.
Qed.

(** X12. Fields of the configuration that a method does not read do not
    change what it does: [verify_notify] reads the merchant id and the
    second secret only; [api_create_order] reads the merchant id, the API
    key and the API base URL, and not the nonce given at construction;
    [api_get_order] reads those and that nonce.  The callback URLs and the
    first secret reach none of them. *)
Theorem unused_configuration (self1 self2 : FreeKassaClient)
    (amount_str order_id sign : string) (nonce i : Z)
    (user_email user_ip payment_id : string) (amount : Decimal)
    (currency : string) (n : Net) :
  _merchant_id self1 = _merchant_id self2 ->
  (_secret2 self1 = _secret2 self2 ->
   verify_notify self1 amount_str order_id sign =
     verify_notify self2 amount_str order_id sign) /\
  (_api_key self1 = _api_key self2 -> _api_url self1 = _api_url self2 ->
   api_create_order JSON loads transport self1 nonce i user_email user_ip
     payment_id amount currency n =
   api_create_order JSON loads transport self2 nonce i user_email user_ip
     payment_id amount currency n) /\
  (_api_key self1 = _api_key self2 -> _api_url self1 = _api_url self2 ->
   _nonce self1 = _nonce self2 ->
   api_get_order JSON loads transport self1 payment_id n =
   api_get_order JSON loads transport self2 payment_id n).
Proof.
  intros Hm. split; [|split].
  - intros Hs. unfold verify_notify. now rewrite Hm, Hs.
  - intros Hk Hu. unfold api_create_order, checked_api_key.
    now rewrite Hm, Hk, Hu.
  - intros Hk Hu Hn. unfold api_get_order, checked_api_key.
    now rewrite Hm, Hk, Hu, Hn.
Qed.

(** X13. After the question mark the checkout URL holds only letters,
    digits, [_.-~], [%], [+], [&] and [=]: no raw space, quote, [#], [?] or
    byte outside ASCII, whatever the currency and the payment id. *)
Theorem checkout_query_characters (self : FreeKassaClient) (amount : Decimal)
    (currency payment_id : string) (payment_method_id : Z) :
  exists query,
    ui_create_order self amount currency payment_id payment_method_id =
      _ui_url self ++ "?" ++ query /\
    all_chars is_query_char query = true.
Proof.
  eexists. split; [reflexivity|].
  assert (Hq : forall t, all_chars is_query_char (quote_plus t) = true).
  { intros t. apply all_chars_weaken with (2 := quote_plus_chars t).
    intros a Ha. unfold is_query_char. now rewrite Ha. }
  unfold urlencode. cbn [map join fst snd].
  rewrite !all_chars_app, !Hq. reflexivity.
Qed.

End Extras.

(** ** The further properties at concrete inputs *)

Module ExtraWitnesses.

Import Py Spec decimal urllib requests hashlib.

Lemma verify_notify_rejects_other_lengths_witness :
  verify_notify client "100.00" "order-1" "528824e3" = false /\
  all_chars is_lower_hex (lower "528824E3528D5F2FCC1AEA712E4CD2AF") = true.
Proof.
  destruct (verify_notify_rejects_other_lengths client "100.00" "order-1"
              "528824e3") as (Hlen & _ & _).
  destruct (verify_notify_rejects_other_lengths client "100.00" "order-1"
              "528824E3528D5F2FCC1AEA712E4CD2AF") as (_ & Hhex & _).
  split.
  - apply Hlen. simpl. discriminate.
  - apply Hhex. vm_compute. reflexivity.
Defined.

Lemma signed_fields_can_shift_witness :
  _api_key client = Some "962c879ce9be06f9d34a556872869220" /\
  checkout_signature client (mkDecimal false 10000 (-2)) "RUB:x" "y" =
    checkout_signature client (mkDecimal false 10000 (-2)) "RUB" "x:y".
Proof.
  split; [reflexivity|].
  apply (signed_fields_can_shift string raw_loads
           (fixed_transport (Ok (mkResponse 200 "{}"))) client
           "962c879ce9be06f9d34a556872869220" (mkDecimal false 10000 (-2))
           "RUB" "x" "y" 1 4 "127.0.0.1" "order-1" [] eq_refl eq_refl).
Defined.

Lemma signing_message_order_free_witness :
  signing_message [("b", VInt 2); ("a", VStr "x")] =
    signing_message [("a", VStr "x"); ("b", VInt 2)].
Proof.
  apply (signing_message_order_free [("b", VInt 2); ("a", VStr "x")]
           [("a", VStr "x"); ("b", VInt 2)]).
  - simpl. repeat constructor; simpl; intuition discriminate.
  - apply perm_swap.
Defined.

Lemma api_signature_field_witness :
  _api_key client = Some "962c879ce9be06f9d34a556872869220" /\
  exists rq sig,
    snd (api_get_order string raw_loads
           (fixed_transport (Ok (mkResponse 200 "{}"))) client "order-1" [])
      = [rq] /\
    getitem (json rq) "signature" = Some (VStr sig) /\
    String.length sig = 64%nat.
Proof.
  split; [reflexivity|].
  destruct (api_signature_field string raw_loads
              (fixed_transport (Ok (mkResponse 200 "{}"))) client
              "962c879ce9be06f9d34a556872869220" 1 4 "a@b.c" "127.0.0.1"
              "order-1" (mkDecimal false 10000 (-2)) "RUB" []
              eq_refl eq_refl) as (_ & rq & sig & Hs & _ & Hg & Hl & _).
  exists rq, sig. repeat split; assumption.
Defined.

Lemma api_get_order_other_status_witness :
  fst (api_get_order string raw_loads
         (fixed_transport (Ok (mkResponse 302 "moved"))) client "order-1" [])
    = Ok "moved" /\
  fst (api_get_order string raw_loads
         (fixed_transport (Ok (mkResponse 600 ""))) client "order-1" [])
    = Raise JSONDecodeError.
Proof.
  split.
  - rewrite (api_get_order_other_status string raw_loads
               (fixed_transport (Ok (mkResponse 302 "moved"))) client
               "962c879ce9be06f9d34a556872869220" "order-1" []
               (mkResponse 302 "moved") eq_refl eq_refl eq_refl
               ltac:(left; simpl; lia)).
    reflexivity.
  - rewrite (api_get_order_other_status string raw_loads
               (fixed_transport (Ok (mkResponse 600 ""))) client
               "962c879ce9be06f9d34a556872869220" "order-1" []
               (mkResponse 600 "") eq_refl eq_refl eq_refl
               ltac:(right; simpl; lia)).
    reflexivity.
Defined.

Lemma api_transport_failure_witness :
  fst (api_create_order string raw_loads
         (fixed_transport (Raise (RequestException "timed out"))) client 1 4
         "a@b.c" "127.0.0.1" "order-1" (mkDecimal false 10000 (-2)) "RUB" [])
    = Raise (RequestException "timed out") /\
  List.length
    (snd (api_get_order string raw_loads
            (fixed_transport (Raise (RequestException "timed out"))) client
            "order-1" [])) = 1%nat.
Proof.
  destruct (api_transport_failure string raw_loads
              (fixed_transport (Raise (RequestException "timed out"))) client
              "962c879ce9be06f9d34a556872869220" 1 4 "a@b.c" "127.0.0.1"
              "order-1" (mkDecimal false 10000 (-2)) "RUB" []
              (RequestException "timed out") (RequestException "timed out")
              eq_refl eq_refl eq_refl eq_refl) as [Hc Hg].
  rewrite Hc, Hg. split; reflexivity.
Defined.

Lemma unused_configuration_witness :
  _nonce client <>
    _nonce (__init__ 66058 "another secret" "Hs)D3l&hb4(?xFf"
              (Some "962c879ce9be06f9d34a556872869220")
              (Some "https://shop.example/ok") None
              (Some "https://shop.example/notify") None
              (Some "https://pay.example/") (Some 7)) /\
  verify_notify client "100.00" "order-1" "00" =
  verify_notify
    (__init__ 66058 "another secret" "Hs)D3l&hb4(?xFf"
       (Some "962c879ce9be06f9d34a556872869220")
       (Some "https://shop.example/ok") None
       (Some "https://shop.example/notify") None
       (Some "https://pay.example/") (Some 7))
    "100.00" "order-1" "00" /\
  api_create_order string raw_loads
    (fixed_transport (Ok (mkResponse 200 "{}"))) client 1 4 "a@b.c"
    "127.0.0.1" "order-1" (mkDecimal false 10000 (-2)) "RUB" [] =
  api_create_order string raw_loads
    (fixed_transport (Ok (mkResponse 200 "{}")))
    (__init__ 66058 "another secret" "Hs)D3l&hb4(?xFf"
       (Some "962c879ce9be06f9d34a556872869220")
       (Some "https://shop.example/ok") None
       (Some "https://shop.example/notify") None
       (Some "https://pay.example/") (Some 7))
    1 4 "a@b.c" "127.0.0.1" "order-1" (mkDecimal false 10000 (-2)) "RUB" [] /\
  api_get_order string raw_loads
    (fixed_transport (Ok (mkResponse 200 "{}"))) client "order-1" [] =
  api_get_order string raw_loads
    (fixed_transport (Ok (mkResponse 200 "{}"))) client_other_settings
    "order-1" [].
Proof.
  split; [simpl; discriminate|].
  destruct (unused_configuration string raw_loads
              (fixed_transport (Ok (mkResponse 200 "{}"))) client
              (__init__ 66058 "another secret" "Hs)D3l&hb4(?xFf"
                 (Some "962c879ce9be06f9d34a556872869220")
                 (Some "https://shop.example/ok") None
                 (Some "https://shop.example/notify") None
                 (Some "https://pay.example/") (Some 7))
              "100.00" "order-1" "00" 1 4 "a@b.c" "127.0.0.1" "order-1"
              (mkDecimal false 10000 (-2)) "RUB" [] eq_refl)
    as (Hv & Hc & _).
  destruct (unused_configuration string raw_loads
              (fixed_transport (Ok (mkResponse 200 "{}"))) client
              client_other_settings
              "100.00" "order-1" "00" 1 4 "a@b.c" "127.0.0.1" "order-1"
              (mkDecimal false 10000 (-2)) "RUB" [] eq_refl)
    as (_ & _ & Hg).
  split; [exact (Hv eq_refl)|].
  split; [exact (Hc eq_refl eq_refl)|].
  exact (Hg eq_refl eq_refl eq_refl).
Defined.

End ExtraWitnesses.

(** * The methods of [Full] *)

(** ** Encoding, and comparing without case *)

Module FullFacts.

Import Py Spec PyFacts LibFacts FormatFacts SizeFacts decimal urllib.

Lemma encode_utf8_surrogate (s : Full.ustr) :
  has_surrogate s = true -> Full.encode_utf8 s = Raise UnicodeEncodeError.
Proof.
  unfold has_surrogate.
  induction s as [|c r IH]; cbn [existsb Full.encode_utf8]; [discriminate|].
  destruct (Full.is_surrogate c); [reflexivity|].
  cbn [orb]. intros H. now rewrite (IH H).
Qed.

Lemma encode_utf8_no_surrogate (s : Full.ustr) :
  has_surrogate s = false -> exists b, Full.encode_utf8 s = Ok b.
Proof.
  unfold has_surrogate.
  induction s as [|c r IH]; cbn [existsb Full.encode_utf8].
  - intros _. now exists "".
  - destruct (Full.is_surrogate c); [discriminate|].
    cbn [orb]. intros H. destruct (IH H) as [b Hb]. rewrite Hb.
    cbn [bind_result]. eexists. reflexivity.
Qed.

Lemma encode_utf8_ok_inv (s : Full.ustr) (b : string) :
  Full.encode_utf8 s = Ok b -> has_surrogate s = false.
Proof.
  intros H. destruct (has_surrogate s) eqn:E; [|reflexivity].
  rewrite (encode_utf8_surrogate s E) in H. discriminate.
Qed.

(** UTF-8 encodes a concatenation piece by piece. *)
Lemma encode_utf8_app (s t : Full.ustr) :
  Full.encode_utf8 (s ++ t)%list =
  bind_result (Full.encode_utf8 s) (fun a =>
  bind_result (Full.encode_utf8 t) (fun b => Ok (a ++ b))).
Proof.
  induction s as [|c r IH]; cbn [app Full.encode_utf8 bind_result].
  - destruct (Full.encode_utf8 t); reflexivity.
  - destruct (Full.is_surrogate c); [reflexivity|].
    rewrite IH. destruct (Full.encode_utf8 r) as [a|e]; [|reflexivity].
    cbn [bind_result].
    destruct (Full.encode_utf8 t) as [b|e]; [|reflexivity].
    cbn [bind_result]. now rewrite string_app_assoc.
Qed.

Lemma ord_range (a : ascii) : 0 <= ord a < 256.
Proof.
  unfold ord. pose proof (N_ascii_bounded a). lia.
Qed.

Lemma ord_chr (c : Z) : 0 <= c < 256 -> ord (chr c) = c.
Proof.
  intros H. unfold ord, chr. rewrite N_ascii_embedding by lia. lia.
Qed.

Lemma ord_inj (a b : ascii) : ord a = ord b -> a = b.
Proof.
  unfold ord. intros H. apply N2Z.inj in H.
  rewrite <- (ascii_N_embedding a), <- (ascii_N_embedding b). now rewrite H.
Qed.

(** An ASCII text encodes to itself. *)
Lemma encode_utf8_ascii (s : string) :
  all_chars is_ascii_char s = true ->
  Full.encode_utf8 (Full.ascii_str s) = Ok s.
Proof.
  induction s as [|a r IH]; cbn [all_chars Full.ascii_str Full.encode_utf8];
    [reflexivity|].
  intros H. apply andb_true_iff in H as [Ha Hr].
  unfold is_ascii_char in Ha. apply Z.ltb_lt in Ha.
  pose proof (ord_range a) as Hrange.
  replace (Full.is_surrogate (ord a)) with false.
  - rewrite (IH Hr). cbn [bind_result]. unfold Full.utf8.
    replace (ord a <? 128) with true by (symmetry; apply Z.ltb_lt; lia).
    cbn [Full.bytes_str String.append]. f_equal. f_equal.
    apply ord_inj. apply ord_chr. lia.
  - symmetry. unfold Full.is_surrogate. apply andb_false_iff. left.
    apply Z.leb_gt. lia.
Qed.

Lemma ustr_eqb_eq (s t : Full.ustr) : Full.ustr_eqb s t = true <-> s = t.
Proof.
  revert t. induction s as [|c r IH]; intros [|d t']; cbn [Full.ustr_eqb];
    split; try congruence; try discriminate.
  - intros H. apply andb_true_iff in H as [Hc Hr].
    apply Z.eqb_eq in Hc. apply IH in Hr. now subst.
  - intros H. injection H as -> ->. rewrite Z.eqb_refl. now apply IH.
Qed.

Lemma ord_lower_ascii (a : ascii) :
  ord (lower_ascii a) =
  if (65 <=? ord a) && (ord a <=? 90) then ord a + 32 else ord a.
Proof. destruct a as [[] [] [] [] [] [] [] []]; reflexivity. Qed.

Lemma lower_hex_ord (d : ascii) :
  is_lower_hex d = true -> 48 <= ord d <= 57 \/ 97 <= ord d <= 102.
Proof.
  unfold is_lower_hex, is_digit. intros H.
  apply orb_true_iff in H as [H | H];
    apply andb_true_iff in H as [H1 H2];
    apply Z.leb_le in H1; apply Z.leb_le in H2; lia.
Qed.

Lemma fold_matches_lower (a d : ascii) :
  is_lower_hex d = true ->
  (ord d =? ord (lower_ascii a)) = fold_matches (ord a) d.
Proof.
  intros Hd. apply lower_hex_ord in Hd.
  rewrite ord_lower_ascii. unfold fold_matches.
  destruct (65 <=? ord a) eqn:E1; destruct (ord a <=? 90) eqn:E2;
    cbn [andb orb];
    try apply Z.leb_le in E1; try apply Z.leb_gt in E1;
    try apply Z.leb_le in E2; try apply Z.leb_gt in E2.
  - replace (ord a =? ord d) with false by (symmetry; apply Z.eqb_neq; lia).
    cbn [orb]. apply Z.eqb_sym.
  - rewrite orb_false_r. apply Z.eqb_sym.
  - rewrite orb_false_r. apply Z.eqb_sym.
  - rewrite orb_false_r. apply Z.eqb_sym.
Qed.

Lemma same_ignoring_case_lower (s digest : string) :
  all_chars is_lower_hex digest = true ->
  Full.ustr_eqb (Full.ascii_str digest) (Full.ascii_str (lower s)) =
  same_ignoring_case (Full.ascii_str s) digest.
Proof.
  revert digest. induction s as [|a r IH]; intros [|d t];
    cbn [lower Full.ascii_str Full.ustr_eqb same_ignoring_case all_chars];
    try reflexivity.
  intros H. apply andb_true_iff in H as [Hd Ht].
  now rewrite (fold_matches_lower a d Hd), (IH t Ht).
Qed.

Lemma same_ignoring_case_ascii (sign : Full.ustr) (digest : string) :
  all_chars is_lower_hex digest = true ->
  same_ignoring_case sign digest = true ->
  forallb is_ascii_cp sign = true.
Proof.
  revert digest. induction sign as [|c r IH]; intros [|d t];
    cbn [same_ignoring_case forallb all_chars]; try discriminate;
    try reflexivity.
  intros H Hs. apply andb_true_iff in H as [Hd Ht].
  apply andb_true_iff in Hs as [Hc Hr].
  rewrite (IH t Ht Hr), andb_true_r.
  apply lower_hex_ord in Hd. unfold fold_matches in Hc. unfold is_ascii_cp.
  apply orb_true_iff in Hc as [Hc | Hc].
  - apply Z.eqb_eq in Hc. apply andb_true_iff.
    split; [apply Z.leb_le | apply Z.ltb_lt]; lia.
  - apply andb_true_iff in Hc as [Hc _]. apply andb_true_iff in Hc as [H1 H2].
    apply Z.leb_le in H1. apply Z.leb_le in H2. apply andb_true_iff.
    split; [apply Z.leb_le | apply Z.ltb_lt]; lia.
Qed.

Lemma ascii_text (sign : Full.ustr) :
  forallb is_ascii_cp sign = true ->
  exists s, sign = Full.ascii_str s /\ all_chars is_ascii_char s = true.
Proof.
  induction sign as [|c r IH]; cbn [forallb].
  - intros _. now exists "".
  - intros H. apply andb_true_iff in H as [Hc Hr].
    destruct (IH Hr) as (s & -> & Hs).
    unfold is_ascii_cp in Hc. apply andb_true_iff in Hc as [H1 H2].
    apply Z.leb_le in H1. apply Z.ltb_lt in H2.
    exists (String (chr c) s). cbn [Full.ascii_str all_chars].
    rewrite ord_chr by lia. split; [reflexivity|].
    rewrite Hs, andb_true_r. unfold is_ascii_char. rewrite ord_chr by lia.
    now apply Z.ltb_lt.
Qed.

Lemma hex_text (digest : string) :
  all_chars is_lower_hex digest = true ->
  all_chars is_ascii_char digest = true /\
  forallb is_hex_cp (Full.ascii_str digest) = true.
Proof.
  induction digest as [|d t IH];
    cbn [all_chars Full.ascii_str forallb]; [now split|].
  intros H. apply andb_true_iff in H as [Hd Ht].
  destruct (IH Ht) as [H1 H2]. rewrite H1, H2, !andb_true_r.
  apply lower_hex_ord in Hd. split.
  - unfold is_ascii_char. apply Z.ltb_lt. lia.
  - unfold is_hex_cp. apply orb_true_iff.
    destruct Hd as [Hd | Hd]; [left | right];
      apply andb_true_iff; split; apply Z.leb_le; lia.
Qed.

(** Comparing the lowercase forms is comparing character by character
    without case: this is all [verify_notify] asks of [str.lower]. *)
Lemma lower_comparison (str_lower : Full.ustr -> Full.ustr)
    (sign : Full.ustr) (digest : string) :
  lower_facts str_lower ->
  all_chars is_lower_hex digest = true ->
  Full.ustr_eqb (str_lower (Full.ascii_str digest)) (str_lower sign) =
  same_ignoring_case sign digest.
Proof.
  intros [H1 H2] Hd. destruct (hex_text digest Hd) as [Hascii Hhex].
  rewrite (H1 digest Hascii), (lower_hex_fixed digest Hd).
  destruct (forallb is_ascii_cp sign) eqn:E.
  - destruct (ascii_text sign E) as (s & -> & Hs).
    rewrite (H1 s Hs). now apply same_ignoring_case_lower.
  - specialize (H2 sign E).
    destruct (same_ignoring_case sign digest) eqn:Es.
    + rewrite (same_ignoring_case_ascii sign digest Hd Es) in E. discriminate.
    + destruct (Full.ustr_eqb (Full.ascii_str digest) (str_lower sign)) eqn:Eq;
        [|reflexivity].
      apply ustr_eqb_eq in Eq. rewrite <- Eq, Hhex in H2. discriminate.
Qed.

(** The stand-in satisfies the two facts. *)
Lemma ascii_only_lower_facts : lower_facts ascii_only_lower.
Proof.
  split.
  - induction s as [|a r IH]; cbn [all_chars Full.ascii_str lower]; [reflexivity|].
    intros H. apply andb_true_iff in H as [_ Hr].
    unfold ascii_only_lower in *. cbn [map]. rewrite (IH Hr).
    now rewrite ord_lower_ascii.
  - induction s as [|c r IH]; cbn [forallb]; [discriminate|].
    intros H. unfold ascii_only_lower in *. cbn [map forallb].
    apply andb_false_iff in H as [H | H].
    + apply andb_false_iff. left.
      unfold is_ascii_cp in H. unfold is_hex_cp.
      destruct (65 <=? c) eqn:E1; destruct (c <=? 90) eqn:E2; cbn [andb];
        try apply Z.leb_le in E1; try apply Z.leb_gt in E1;
        try apply Z.leb_le in E2; try apply Z.leb_gt in E2;
        apply andb_false_iff in H as [H | H];
        try apply Z.leb_gt in H; try apply Z.ltb_ge in H; try lia;
        apply orb_false_iff; split; apply andb_false_iff;
        first [left; apply Z.leb_gt; lia | right; apply Z.leb_gt; lia].
    + apply andb_false_iff. right. now apply IH.
Qed.

End FullFacts.

(** ** Rounding under a context, and the runs of the methods *)

Module ContextFacts.

Import Py Spec PyFacts LibFacts FormatFacts SizeFacts FullFacts.
Import decimal urllib requests hashlib.

(** Under the default rounding the general formatting is [format_2f]. *)
Lemma format_2f_default (d : Decimal) :
  Full.format_2f_in Full.ROUND_HALF_EVEN (Full.Finite d) = format_2f d.
Proof. reflexivity. Qed.

Lemma rescale2_in_nonneg (r : Full.rounding) (d : Decimal) :
  0 <= Full.rescale2_in r d.
Proof.
  unfold Full.rescale2_in. pose proof (N2Z.is_nonneg (coefficient d)) as Hc.
  destruct (-2 <=? exponent d) eqn:E.
  - apply Z.leb_le in E. apply Z.mul_nonneg_nonneg; [assumption|].
    apply Z.pow_nonneg. lia.
  - apply Z.leb_gt in E.
    assert (Hp : 0 < 10 ^ (-2 - exponent d)) by (apply Z.pow_pos_nonneg; lia).
    assert (Hq : 0 <= Z.of_N (coefficient d) / 10 ^ (-2 - exponent d))
      by (apply Z.div_pos; lia).
    destruct (Full.increments _ _ _ _ _); lia.
Qed.


Lemma payload_str_chars (payload : N) :
  all_chars always_safe (Full.payload_str payload) = true.
Proof.
  unfold Full.payload_str. destruct (payload =? 0)%N; [reflexivity|].
  apply all_chars_weaken with (p := is_digit); [apply digit_safe|].
  apply str_of_nat_Z_digits. lia.
Qed.

(** Whatever the amount and the rounding mode, the formatted amount needs
    no escaping in a query string. *)
Lemma format_2f_in_chars (r : Full.rounding) (amount : Full.DecimalValue) :
  all_chars always_safe (Full.format_2f_in r amount) = true.
Proof.
  destruct amount as [d | negative s]; unfold Full.format_2f_in.
  - pose proof (rescale2_in_nonneg r d) as Hq.
    destruct (format_2f_fields _ Hq) as (_ & Hi & H1 & H0).
    rewrite !all_chars_app. cbn [all_chars].
    repeat (apply andb_true_iff; split); try reflexivity.
    + destruct (sign d); reflexivity.
    + apply all_chars_weaken with (p := is_digit);
        [apply digit_safe | now apply str_of_nat_Z_digits].
    + apply digit_safe. now apply digit_is_digit.
    + apply digit_safe. now apply digit_is_digit.
  - rewrite all_chars_app. apply andb_true_iff. split.
    + destruct negative; reflexivity.
    + destruct s; try reflexivity;
        change (all_chars always_safe (?x ++ Full.payload_str payload))
          with (all_chars always_safe (x ++ Full.payload_str payload));
        rewrite all_chars_app, payload_str_chars; reflexivity.
Qed.

(** One run of [Full.ui_create_order] on a currency and a payment id that
    encode. *)
Lemma full_ui_create_order_ok (r : Full.rounding) (self : FreeKassaClient)
    (amount : Full.DecimalValue) (currency payment_id : Full.ustr)
    (currency_b payment_b : string) (payment_method_id : Z) :
  Full.encode_utf8 currency = Ok currency_b ->
  Full.encode_utf8 payment_id = Ok payment_b ->
  Full.ui_create_order r self amount currency payment_id payment_method_id =
  Ok (_ui_url self ++ "?" ++
      checkout_query_in r self amount currency_b payment_b payment_method_id).
Proof.
  intros Hc Hp. unfold Full.ui_create_order. rewrite Hc, Hp.
  cbn [bind_result]. f_equal. f_equal. f_equal.
  unfold checkout_query_in, urlencode. cbn [map join fst snd str].
  change (quote_plus "m") with "m". change (quote_plus "oa") with "oa".
  change (quote_plus "currency") with "currency".
  change (quote_plus "o") with "o". change (quote_plus "s") with "s".
  change (quote_plus "i") with "i".
  rewrite !quote_plus_str_of_int.
  rewrite (quote_plus_safe (Full.format_2f_in r amount))
    by apply format_2f_in_chars.
  rewrite quote_plus_hexdigest by apply md5_range.
  cbn [String.append]. reflexivity.
Qed.

(** A lone surrogate in the currency or in the payment id makes
    [Full.ui_create_order] raise. *)
Lemma full_ui_create_order_raises (r : Full.rounding) (self : FreeKassaClient)
    (amount : Full.DecimalValue) (currency payment_id : Full.ustr)
    (payment_method_id : Z) :
  has_surrogate currency = true \/ has_surrogate payment_id = true ->
  Full.ui_create_order r self amount currency payment_id payment_method_id =
  Raise UnicodeEncodeError.
Proof.
  intros H. unfold Full.ui_create_order.
  destruct (has_surrogate currency) eqn:Ec.
  - now rewrite (encode_utf8_surrogate currency Ec).
  - destruct (encode_utf8_no_surrogate currency Ec) as [b Hb]. rewrite Hb.
    cbn [bind_result]. destruct H as [H | H]; [discriminate|].
    now rewrite (encode_utf8_surrogate payment_id H).
Qed.

End ContextFacts.

(** ** The API method of [Full] *)

Section FullApiFacts.

Import Py Spec PyFacts LibFacts FormatFacts SizeFacts FullFacts ContextFacts.
Import decimal urllib requests hashlib.

Variable JSON : Type.
Variable loads : string -> option JSON.
Variable transport : Net -> Request -> result Response.

(** One run of [Full.api_create_order] with a key, on arguments that
    encode. *)
Lemma full_api_create_order_ok (r : Full.rounding) (self : FreeKassaClient)
    (key : string) (nonce i : Z) (user_email user_ip payment_id : Full.ustr)
    (amount : Full.DecimalValue) (currency : Full.ustr)
    (email_b ip_b payment_b currency_b : string) (n : Net) :
  _api_key self = Some key -> key <> "" ->
  Full.encode_utf8 user_email = Ok email_b ->
  Full.encode_utf8 user_ip = Ok ip_b ->
  Full.encode_utf8 payment_id = Ok payment_b ->
  Full.encode_utf8 currency = Ok currency_b ->
  let rq := create_order_request_in r self key nonce i email_b ip_b payment_b
              amount currency_b in
  Full.api_create_order JSON loads transport r self nonce i user_email user_ip
    payment_id amount currency n
  = (bind_result (transport n rq) (response_json JSON loads), (n ++ [rq])%list).
Proof.
  intros Hk Hne He Hi Hp Hc rq. unfold Full.api_create_order, bind.
  rewrite (checked_api_key_some self key n Hk Hne).
  unfold lift. rewrite Hc, Hp, Hi, He.
  change (signing_message _) with
    (Ok (Full.format_2f_in r amount ++ "|" ++ currency_b ++ "|" ++
         email_b ++ "|" ++ str_of_int i ++ "|" ++ ip_b ++ "|" ++
         str_of_int nonce ++ "|" ++ payment_b ++ "|" ++
         str_of_int (_merchant_id self))).
  unfold post. change (mkRequest _ _ 10) with rq.
  destruct (transport n rq); reflexivity.
Qed.

(** With a lone surrogate in one of its four [str] arguments,
    [Full.api_create_order] raises before [requests.post] is called. *)
Lemma full_api_create_order_raises (r : Full.rounding)
    (self : FreeKassaClient) (key : string) (nonce i : Z)
    (user_email user_ip payment_id : Full.ustr) (amount : Full.DecimalValue)
    (currency : Full.ustr) (n : Net) :
  _api_key self = Some key -> key <> "" ->
  has_surrogate user_email = true \/ has_surrogate user_ip = true \/
  has_surrogate payment_id = true \/ has_surrogate currency = true ->
  Full.api_create_order JSON loads transport r self nonce i user_email user_ip
    payment_id amount currency n
  = (Raise UnicodeEncodeError, n).
Proof.
  intros Hk Hne H. unfold Full.api_create_order, bind.
  rewrite (checked_api_key_some self key n Hk Hne). unfold lift.
  destruct (has_surrogate currency) eqn:Ec;
    [now rewrite (encode_utf8_surrogate currency Ec)|].
  destruct (encode_utf8_no_surrogate currency Ec) as [cb ->].
  destruct (has_surrogate payment_id) eqn:Ep;
    [now rewrite (encode_utf8_surrogate payment_id Ep)|].
  destruct (encode_utf8_no_surrogate payment_id Ep) as [pb ->].
  destruct (has_surrogate user_ip) eqn:Ei;
    [now rewrite (encode_utf8_surrogate user_ip Ei)|].
  destruct (encode_utf8_no_surrogate user_ip Ei) as [ib ->].
  destruct (has_surrogate user_email) eqn:Ee;
    [now rewrite (encode_utf8_surrogate user_email Ee)|].
  exfalso. destruct H as [H | [H | [H | H]]]; discriminate.
Qed.

End FullApiFacts.

(** ** Claims and properties stated on the methods of [Full] *)

Section FullClaims.

Import Py Spec PyFacts LibFacts FormatFacts QueryFacts DecodeFacts SizeFacts.
Import PureFacts FullFacts ContextFacts.
Import decimal urllib requests hashlib.

Variable str_lower : Full.ustr -> Full.ustr.
Variable JSON : Type.
Variable loads : string -> option JSON.
Variable transport : Net -> Request -> result Response.

Lemma full_verify_notify_ok (self : FreeKassaClient)
    (amount order_id sign : Full.ustr) (amount_b order_b : string) :
  lower_facts str_lower ->
  Full.encode_utf8 amount = Ok amount_b ->
  Full.encode_utf8 order_id = Ok order_b ->
  Full.verify_notify str_lower self amount order_id sign =
  Ok (same_ignoring_case sign
        (__md5hex (str_of_int (_merchant_id self) ++ ":" ++ amount_b ++ ":" ++
                   _secret2 self ++ ":" ++ order_b))).
Proof.
  intros HF Ha Ho. unfold Full.verify_notify. rewrite Ha, Ho.
  cbn [bind_result]. f_equal.
  apply (lower_comparison str_lower sign _ HF).
  apply hexdigest_chars, md5_range.
Qed.

Lemma full_verify_notify_raises (self : FreeKassaClient)
    (amount order_id sign : Full.ustr) :
  has_surrogate amount = true \/ has_surrogate order_id = true ->
  Full.verify_notify str_lower self amount order_id sign =
  Raise UnicodeEncodeError.
Proof.
  intros H. unfold Full.verify_notify.
  destruct (has_surrogate amount) eqn:Ea.
  - now rewrite (encode_utf8_surrogate amount Ea).
  - destruct (encode_utf8_no_surrogate amount Ea) as [b ->].
    cbn [bind_result]. destruct H as [H | H]; [discriminate|].
    now rewrite (encode_utf8_surrogate order_id H).
Qed.

(** On well-formed text, finite amounts and the default rounding, the
    methods of [Full] are the methods of the section [Client]. *)
Lemma full_ui_create_order_default (self : FreeKassaClient) (amount : Decimal)
    (currency payment_id : Full.ustr) (currency_b payment_b : string)
    (payment_method_id : Z) :
  Full.encode_utf8 currency = Ok currency_b ->
  Full.encode_utf8 payment_id = Ok payment_b ->
  Full.ui_create_order Full.ROUND_HALF_EVEN self (Full.Finite amount) currency
    payment_id payment_method_id =
  Ok (ui_create_order self amount currency_b payment_b payment_method_id).
Proof.
  intros Hc Hp. unfold Full.ui_create_order. rewrite Hc, Hp. reflexivity.
Qed.

Lemma full_api_create_order_default (self : FreeKassaClient) (nonce i : Z)
    (user_email user_ip payment_id currency : Full.ustr)
    (email_b ip_b payment_b currency_b : string) (amount : Decimal) (n : Net) :
  Full.encode_utf8 user_email = Ok email_b ->
  Full.encode_utf8 user_ip = Ok ip_b ->
  Full.encode_utf8 payment_id = Ok payment_b ->
  Full.encode_utf8 currency = Ok currency_b ->
  Full.api_create_order JSON loads transport Full.ROUND_HALF_EVEN self nonce i
    user_email user_ip payment_id (Full.Finite amount) currency n =
  api_create_order JSON loads transport self nonce i email_b ip_b payment_b
    amount currency_b n.
Proof.
  intros He Hi Hp Hc. unfold Full.api_create_order, api_create_order, bind.
  destruct (checked_api_key self n) as [[key|e] n']; [|reflexivity].
  unfold lift. rewrite Hc, Hp, Hi, He. reflexivity.
Qed.

Lemma ascii_str_eqb (s t : string) :
  Full.ustr_eqb (Full.ascii_str s) (Full.ascii_str t) = String.eqb s t.
Proof.
  revert t. induction s as [|a r IH]; intros [|b t];
    cbn [Full.ascii_str Full.ustr_eqb]; try reflexivity.
  rewrite IH. cbn [String.eqb].
  destruct (Ascii.eqb_spec a b) as [-> | Hab].
  - now rewrite Z.eqb_refl.
  - replace (ord a =? ord b) with false; [reflexivity|].
    symmetry. apply Z.eqb_neq. intros H. apply Hab. now apply ord_inj.
Qed.

Lemma full_verify_notify_default (self : FreeKassaClient)
    (amount order_id : Full.ustr) (amount_b order_b sign : string) :
  lower_facts str_lower ->
  Full.encode_utf8 amount = Ok amount_b ->
  Full.encode_utf8 order_id = Ok order_b ->
  Full.verify_notify str_lower self amount order_id (Full.ascii_str sign) =
  Ok (verify_notify self amount_b order_b sign).
Proof.
  intros HF Ha Ho.
  rewrite (full_verify_notify_ok self _ _ _ amount_b order_b HF Ha Ho).
  f_equal. unfold verify_notify. rewrite md5hex_lower.
  rewrite <- same_ignoring_case_lower
    by (unfold __md5hex; apply hexdigest_chars, md5_range).
  apply ascii_str_eqb.
Qed.

(** C1. When the amount and the order id hold no lone
    surrogate, [verify_notify] returns a boolean and does not raise: [True]
    exactly when the lowercase form of the signature is the lowercase form of
    the hexadecimal MD5 digest of [merchant_id:amount:secret2:order_id] (the
    amount as received, the whole encoded as UTF-8), which is the digest
    itself; that is, when the signature is the digest character by
    character, case ignored.  When the amount or the order id holds a lone
    surrogate the call raises [UnicodeEncodeError].  On the module's client
    the digest of [66058:100.00:Hs)D3l&hb4(?xFf:order-1] is accepted in upper
    case, and rejected for the amount [100.0]. *)
Theorem verify_notify_spec (self : FreeKassaClient)
    (amount order_id sign : Full.ustr) :
  lower_facts str_lower ->
  (forall amount_b order_b,
     Full.encode_utf8 amount = Ok amount_b ->
     Full.encode_utf8 order_id = Ok order_b ->
     let digest :=
       hexdigest (md5 (encode (str_of_int (_merchant_id self) ++ ":" ++
                               amount_b ++ ":" ++ _secret2 self ++ ":" ++
                               order_b))) in
     exists answer,
       Full.verify_notify str_lower self amount order_id sign = Ok answer /\
       (answer = true <->
          str_lower sign = str_lower (Full.ascii_str digest)) /\
       str_lower (Full.ascii_str digest) = Full.ascii_str digest /\
       answer = same_ignoring_case sign digest) /\
  (has_surrogate amount = true \/ has_surrogate order_id = true ->
   Full.verify_notify str_lower self amount order_id sign =
   Raise UnicodeEncodeError) /\
  Full.verify_notify str_lower client (Full.ascii_str "100.00")
    (Full.ascii_str "order-1")
    (Full.ascii_str "528824E3528D5F2FCC1AEA712E4CD2AF") = Ok true /\
  Full.verify_notify str_lower client (Full.ascii_str "100.0")
    (Full.ascii_str "order-1")
    (Full.ascii_str "528824E3528D5F2FCC1AEA712E4CD2AF") = Ok false.
Proof.
  intros HF. split; [|split; [|split]].
  - intros amount_b order_b Ha Ho digest.
    assert (Hd : all_chars is_lower_hex digest = true)
      by apply hexdigest_chars, md5_range.
    destruct (hex_text digest Hd) as [Hascii _].
    assert (Hfix : str_lower (Full.ascii_str digest) = Full.ascii_str digest).
    { destruct HF as [H1 _]. now rewrite (H1 digest Hascii), lower_hex_fixed. }
    exists (same_ignoring_case sign digest).
    split; [apply (full_verify_notify_ok self _ _ _ _ _ HF Ha Ho)|].
    split; [|split; [exact Hfix | reflexivity]].
    rewrite <- (lower_comparison str_lower sign digest HF Hd).
    rewrite ustr_eqb_eq. split; intros H; now symmetry.
  - apply full_verify_notify_raises.
  - rewrite (full_verify_notify_ok client _ _ _ "100.00" "order-1" HF)
      by reflexivity.
    vm_compute. reflexivity.
  - rewrite (full_verify_notify_ok client _ _ _ "100.0" "order-1" HF)
      by reflexivity.
    vm_compute. reflexivity.
Qed.

Lemma checkout_urlencode_in (r : Full.rounding) (self : FreeKassaClient)
    (amount : Full.DecimalValue) (currency_b payment_b : string)
    (payment_method_id : Z) :
  let amount_str := Full.format_2f_in r amount in
  let signature :=
    hexdigest (md5 (encode (str_of_int (_merchant_id self) ++ ":" ++
                            amount_str ++ ":" ++ _secret1 self ++ ":" ++
                            currency_b ++ ":" ++ payment_b))) in
  urlencode
    [ ("m", VInt (_merchant_id self)); ("oa", VStr amount_str);
      ("currency", VStr currency_b); ("o", VStr payment_b);
      ("s", VStr signature); ("i", VInt payment_method_id) ] =
  checkout_query_in r self amount currency_b payment_b payment_method_id.
Proof.
  intros amount_str signature.
  unfold checkout_query_in, urlencode. cbn [map join fst snd str].
  change (quote_plus "m") with "m". change (quote_plus "oa") with "oa".
  change (quote_plus "currency") with "currency".
  change (quote_plus "o") with "o". change (quote_plus "s") with "s".
  change (quote_plus "i") with "i".
  rewrite !quote_plus_str_of_int.
  unfold amount_str, signature.
  rewrite (quote_plus_safe (Full.format_2f_in r amount))
    by apply format_2f_in_chars.
  rewrite quote_plus_hexdigest by apply md5_range.
  cbn [String.append]. reflexivity.
Qed.

(** C3. When the currency and the payment id hold no lone
    surrogate, [ui_create_order] returns the UI base URL, a question mark
    and the query [m], [oa], [currency], [o], [s], [i]: [oa] is the
    formatted amount, [s] the hexadecimal MD5 digest of
    [merchant_id:amount_str:secret1:currency:payment_id], and the values are
    percent-encoded, so that the query holds only unreserved characters,
    [%], [+], [&], [=] and reads back as the six values.  With a lone
    surrogate in the currency or in the payment id the call raises
    [UnicodeEncodeError].  On the module's client: the URL of the known
    vector, and the escapes of a currency [R B+&=%/~] followed by U+00E9. *)
Theorem ui_create_order_spec (r : Full.rounding) (self : FreeKassaClient)
    (amount : Full.DecimalValue) (currency payment_id : Full.ustr)
    (payment_method_id : Z) :
  (forall currency_b payment_b,
     Full.encode_utf8 currency = Ok currency_b ->
     Full.encode_utf8 payment_id = Ok payment_b ->
     let amount_str := Full.format_2f_in r amount in
     let signature :=
       hexdigest (md5 (encode (str_of_int (_merchant_id self) ++ ":" ++
                               amount_str ++ ":" ++ _secret1 self ++ ":" ++
                               currency_b ++ ":" ++ payment_b))) in
     exists query,
       Full.ui_create_order r self amount currency payment_id
         payment_method_id = Ok (_ui_url self ++ "?" ++ query) /\
       query =
         "m=" ++ str_of_int (_merchant_id self) ++
         "&oa=" ++ amount_str ++
         "&currency=" ++ quote_plus currency_b ++
         "&o=" ++ quote_plus payment_b ++
         "&s=" ++ signature ++
         "&i=" ++ str_of_int payment_method_id /\
       decode_query query =
         [ ("m", str_of_int (_merchant_id self)); ("oa", amount_str);
           ("currency", currency_b); ("o", payment_b); ("s", signature);
           ("i", str_of_int payment_method_id) ] /\
       all_chars is_query_char query = true) /\
  (has_surrogate currency = true \/ has_surrogate payment_id = true ->
   Full.ui_create_order r self amount currency payment_id payment_method_id
   = Raise UnicodeEncodeError) /\
  Full.ui_create_order Full.ROUND_HALF_EVEN client
    (Full.Finite (mkDecimal false 10000 (-2))) (Full.ascii_str "RUB")
    (Full.ascii_str "order-1") 4 =
  Ok "https://pay.fk.money/?m=66058&oa=100.00&currency=RUB&o=order-1&s=4bc8d94974dbabfec61451745fd0e71f&i=4" /\
  Full.ui_create_order Full.ROUND_HALF_EVEN client
    (Full.Finite (mkDecimal false 10000 (-2)))
    [82; 32; 66; 43; 38; 61; 37; 47; 126; 233] (Full.ascii_str "a=b c") 4 =
  Ok "https://pay.fk.money/?m=66058&oa=100.00&currency=R+B%2B%26%3D%25%2F~%C3%A9&o=a%3Db+c&s=1ae232661a0befc23db92806f0c1fd43&i=4".
Proof.
  split; [|split; [|split]].
  - intros currency_b payment_b Hc Hp amount_str signature.
    exists (checkout_query_in r self amount currency_b payment_b
              payment_method_id).
    split; [now apply full_ui_create_order_ok|].
    split; [reflexivity|].
    pose proof (checkout_urlencode_in r self amount currency_b payment_b
                  payment_method_id) as Hq.
    cbv zeta in Hq. fold amount_str signature in Hq.
    rewrite <- Hq. split.
    + rewrite decode_query_urlencode by discriminate. reflexivity.
    + assert (Hall : forall t, all_chars is_query_char (quote_plus t) = true).
      { intros t. apply all_chars_weaken with (2 := quote_plus_chars t).
        intros a Ha. unfold is_query_char. now rewrite Ha. }
      unfold urlencode. cbn [map join fst snd].
      rewrite !all_chars_app, !Hall. reflexivity.
  - apply full_ui_create_order_raises.
  - vm_compute. reflexivity.
  - vm_compute. reflexivity.
Qed.


(** C9. [ui_create_order] depends on its arguments, on three
    fields of the configuration (merchant id, first secret, UI base URL)
    and on the rounding mode of the current decimal context: under the same
    mode, two clients that agree on those fields give the same result for
    the same arguments, and a URL it returns lists its parameters in the
    order [m], [oa], [currency], [o], [s], [i]. *)
Theorem ui_create_order_same_context (r : Full.rounding)
    (self1 self2 : FreeKassaClient) (amount : Full.DecimalValue)
    (currency payment_id : Full.ustr) (payment_method_id : Z) :
  _merchant_id self1 = _merchant_id self2 ->
  _secret1 self1 = _secret1 self2 ->
  _ui_url self1 = _ui_url self2 ->
  Full.ui_create_order r self1 amount currency payment_id payment_method_id =
    Full.ui_create_order r self2 amount currency payment_id payment_method_id /\
  (forall u,
     Full.ui_create_order r self1 amount currency payment_id payment_method_id
       = Ok u ->
     exists query,
       u = _ui_url self1 ++ "?" ++ query /\
       param_names query = ["m"; "oa"; "currency"; "o"; "s"; "i"]).
Proof.
  intros Hm Hs Hu. split.
  - unfold Full.ui_create_order. now rewrite Hm, Hs, Hu.
  - intros u Hrun. unfold Full.ui_create_order in Hrun.
    destruct (Full.encode_utf8 currency) as [cb|]; [|discriminate].
    destruct (Full.encode_utf8 payment_id) as [pb|]; [|discriminate].
    cbn [bind_result] in Hrun. injection Hrun as <-.
    eexists. split; [reflexivity|].
    rewrite param_names_urlencode by discriminate. reflexivity.
Qed.

(** X1. When the amount and the order id hold no lone surrogate,
    [verify_notify] accepts the digest it computes, written in lower case
    or in upper case. *)
Theorem verify_notify_accepts_digest (self : FreeKassaClient)
    (amount order_id : Full.ustr) (amount_b order_b : string) :
  lower_facts str_lower ->
  Full.encode_utf8 amount = Ok amount_b ->
  Full.encode_utf8 order_id = Ok order_b ->
  let digest :=
    __md5hex (str_of_int (_merchant_id self) ++ ":" ++ amount_b ++ ":" ++
              _secret2 self ++ ":" ++ order_b) in
  Full.verify_notify str_lower self amount order_id (Full.ascii_str digest)
    = Ok true /\
  Full.verify_notify str_lower self amount order_id
    (Full.ascii_str (upper digest)) = Ok true.
Proof.
  intros HF Ha Ho digest.
  assert (Hd : all_chars is_lower_hex digest = true)
    by (apply hexdigest_chars, md5_range).
  rewrite !(full_verify_notify_ok self _ _ _ amount_b order_b HF Ha Ho).
  fold digest.
  assert (G : forall t, all_chars is_lower_hex t = true ->
                same_ignoring_case (Full.ascii_str t) t = true /\
                same_ignoring_case (Full.ascii_str (upper t)) t = true).
  { induction t as [|a t' IH];
      cbn [all_chars Full.ascii_str upper same_ignoring_case]; [now split|].
    intros H. apply andb_true_iff in H as [Hx Ht].
    destruct (IH Ht) as [I1 I2]. rewrite I1, I2, !andb_true_r.
    clear - Hx. split.
    - unfold fold_matches. now rewrite Z.eqb_refl.
    - revert Hx. destruct a as [[] [] [] [] [] [] [] []]; intros Hx;
        first [reflexivity | cbv in Hx; discriminate]. }
  destruct (G digest Hd) as [G1 G2]. now rewrite G1, G2.
Qed.

(** X8. With an API key set, [api_create_order] calls [requests.post] at most
    once: once, after the calls already made, when its four [str]
    arguments encode, and not at all when one of them holds a lone
    surrogate, in which case it raises [UnicodeEncodeError]. *)
Theorem api_create_order_posts_at_most_once (r : Full.rounding)
    (self : FreeKassaClient) (key : string) (nonce i : Z)
    (user_email user_ip payment_id : Full.ustr) (amount : Full.DecimalValue)
    (currency : Full.ustr) (n : Net) :
  _api_key self = Some key ->
  truthy (Some key) = true ->
  (has_surrogate user_email = false -> has_surrogate user_ip = false ->
   has_surrogate payment_id = false -> has_surrogate currency = false ->
   exists rq,
     snd (Full.api_create_order JSON loads transport r self nonce i
            user_email user_ip payment_id amount currency n)
       = (n ++ [rq])%list /\
     url rq = _api_url self ++ "orders/create") /\
  (has_surrogate user_email = true \/ has_surrogate user_ip = true \/
   has_surrogate payment_id = true \/ has_surrogate currency = true ->
   Full.api_create_order JSON loads transport r self nonce i user_email
     user_ip payment_id amount currency n
   = (Raise UnicodeEncodeError, n)).
Proof.
  intros Hk Ht. pose proof (truthy_nonempty key Ht) as Hne. split.
  - intros He Hi Hp Hc.
    destruct (encode_utf8_no_surrogate _ He) as [eb Heb].
    destruct (encode_utf8_no_surrogate _ Hi) as [ib Hib].
    destruct (encode_utf8_no_surrogate _ Hp) as [pb Hpb].
    destruct (encode_utf8_no_surrogate _ Hc) as [cb Hcb].
    exists (create_order_request_in r self key nonce i eb ib pb amount cb).
    split; [|reflexivity].
    now rewrite (full_api_create_order_ok JSON loads transport r self key
                   nonce i user_email user_ip payment_id amount currency
                   eb ib pb cb n Hk Hne Heb Hib Hpb Hcb).
  - intros H. now apply (full_api_create_order_raises JSON loads transport r
                           self key).
Qed.

(** X11. Under the default rounding mode, [ROUND_HALF_EVEN], an amount of at
    most half a hundredth is written as zero and keeps its sign: a negative
    one is signed and sent as [-0.00]. *)
Theorem format_2f_below_half_cent (d : Decimal) :
  exponent d < -2 ->
  2 * Z.of_N (coefficient d) <= 10 ^ (-2 - exponent d) ->
  Full.format_2f_in Full.ROUND_HALF_EVEN (Full.Finite d) =
    if sign d then "-0.00" else "0.00".
Proof.
  intros He Hc.
  assert (Hq : Full.rescale2_in Full.ROUND_HALF_EVEN d = 0).
  { unfold Full.rescale2_in, Full.increments.
    replace (-2 <=? exponent d) with false by (symmetry; apply Z.leb_gt; lia).
    pose proof (N2Z.is_nonneg (coefficient d)) as Hn.
    assert (Hp : 0 < 10 ^ (-2 - exponent d)) by (apply Z.pow_pos_nonneg; lia).
    rewrite Z.div_small, Z.mod_small by lia.
    replace (10 ^ (-2 - exponent d) <? 2 * Z.of_N (coefficient d)) with false
      by (symmetry; apply Z.ltb_ge; lia).
    cbn [orb Z.odd]. now rewrite andb_false_r. }
  unfold Full.format_2f_in. rewrite Hq. destruct (sign d); reflexivity.
Qed.

End FullClaims.

(** ** The claims and properties of [Full] at concrete inputs *)

Module FullWitnesses.

Import Py Spec FullFacts decimal urllib requests hashlib.

Lemma verify_notify_spec_witness :
  Full.verify_notify ascii_only_lower client (Full.ascii_str "100.00")
    (Full.ascii_str "order-1")
    (Full.ascii_str "528824e3528D5F2FCC1AEA712E4CD2af") = Ok true /\
  Full.verify_notify ascii_only_lower client (Full.ascii_str "100.00")
    (Full.ascii_str "order-1")
    (8490 :: Full.ascii_str "28824e3528d5f2fcc1aea712e4cd2af") = Ok false.
Proof.
  destruct (verify_notify_spec ascii_only_lower client
              (Full.ascii_str "100.00") (Full.ascii_str "order-1")
              (Full.ascii_str "528824e3528D5F2FCC1AEA712E4CD2af")
              ascii_only_lower_facts) as (H & _).
  destruct (H "100.00" "order-1" eq_refl eq_refl) as (a & -> & _ & _ & ->).
  destruct (verify_notify_spec ascii_only_lower client
              (Full.ascii_str "100.00") (Full.ascii_str "order-1")
              (8490 :: Full.ascii_str "28824e3528d5f2fcc1aea712e4cd2af")
              ascii_only_lower_facts) as (H' & _).
  destruct (H' "100.00" "order-1" eq_refl eq_refl) as (a' & -> & _ & _ & ->).
  split; vm_compute; reflexivity.
Defined.

Lemma verify_notify_surrogate_counterexample :
  Full.verify_notify ascii_only_lower client [55296]
    (Full.ascii_str "order-1")
    (Full.ascii_str "528824e3528d5f2fcc1aea712e4cd2af")
  = Raise UnicodeEncodeError.
Proof. reflexivity. Qed.

Lemma ui_create_order_spec_witness :
  exists query,
    Full.ui_create_order Full.ROUND_HALF_EVEN client
      (Full.Finite (mkDecimal false 10000 (-2))) (Full.ascii_str "R&B")
      (Full.ascii_str "order 1") 4 = Ok ("https://pay.fk.money/?" ++ query) /\
    decode_query query =
      [ ("m", "66058"); ("oa", "100.00"); ("currency", "R&B");
        ("o", "order 1"); ("s", "f61e9639d370d2e90765471b3b5ad6e4");
        ("i", "4") ].
Proof.
  destruct (ui_create_order_spec Full.ROUND_HALF_EVEN client
              (Full.Finite (mkDecimal false 10000 (-2)))
              (Full.ascii_str "R&B") (Full.ascii_str "order 1") 4)
    as (H & _).
  destruct (H "R&B" "order 1" eq_refl eq_refl) as (query & Hrun & _ & Hd & _).
  exists query. split; [exact Hrun|].
  rewrite Hd. vm_compute. reflexivity.
Defined.

Lemma ui_create_order_surrogate_counterexample :
  Full.ui_create_order Full.ROUND_HALF_EVEN client
    (Full.Finite (mkDecimal false 10000 (-2))) [82; 57343; 66]
    (Full.ascii_str "order-1") 4
  = Raise UnicodeEncodeError.
Proof. reflexivity. Qed.



Lemma ui_create_order_same_context_witness :
  _api_key client <> _api_key client_without_key /\
  Full.ui_create_order Full.ROUND_FLOOR client
    (Full.Finite (mkDecimal false 10000 (-2))) (Full.ascii_str "RUB")
    (Full.ascii_str "order-1") 4 =
  Full.ui_create_order Full.ROUND_FLOOR client_without_key
    (Full.Finite (mkDecimal false 10000 (-2))) (Full.ascii_str "RUB")
    (Full.ascii_str "order-1") 4.
Proof.
  split; [discriminate|].
  apply (ui_create_order_same_context Full.ROUND_FLOOR client
           client_without_key (Full.Finite (mkDecimal false 10000 (-2)))
           (Full.ascii_str "RUB") (Full.ascii_str "order-1") 4);
    reflexivity.
Defined.

(** The same client and the same arguments, under two rounding modes. *)
Lemma ui_create_order_context_counterexample :
  Full.ui_create_order Full.ROUND_HALF_EVEN client
    (Full.Finite (mkDecimal true 5 (-3))) (Full.ascii_str "RUB")
    (Full.ascii_str "order-1") 4 =
  Ok "https://pay.fk.money/?m=66058&oa=-0.00&currency=RUB&o=order-1&s=920f9fb7ad898592cd956120fb409520&i=4" /\
  Full.ui_create_order Full.ROUND_HALF_UP client
    (Full.Finite (mkDecimal true 5 (-3))) (Full.ascii_str "RUB")
    (Full.ascii_str "order-1") 4 =
  Ok "https://pay.fk.money/?m=66058&oa=-0.01&currency=RUB&o=order-1&s=428a8fb8e686a3da6cfd397c4ad5215e&i=4" /\
  Full.ui_create_order Full.ROUND_HALF_EVEN client
    (Full.Finite (mkDecimal true 5 (-3))) (Full.ascii_str "RUB")
    (Full.ascii_str "order-1") 4 <>
  Full.ui_create_order Full.ROUND_HALF_UP client
    (Full.Finite (mkDecimal true 5 (-3))) (Full.ascii_str "RUB")
    (Full.ascii_str "order-1") 4.
Proof.
  assert (H1 : Full.ui_create_order Full.ROUND_HALF_EVEN client
                 (Full.Finite (mkDecimal true 5 (-3))) (Full.ascii_str "RUB")
                 (Full.ascii_str "order-1") 4 =
               Ok "https://pay.fk.money/?m=66058&oa=-0.00&currency=RUB&o=order-1&s=920f9fb7ad898592cd956120fb409520&i=4")
    by (vm_compute; reflexivity).
  assert (H2 : Full.ui_create_order Full.ROUND_HALF_UP client
                 (Full.Finite (mkDecimal true 5 (-3))) (Full.ascii_str "RUB")
                 (Full.ascii_str "order-1") 4 =
               Ok "https://pay.fk.money/?m=66058&oa=-0.01&currency=RUB&o=order-1&s=428a8fb8e686a3da6cfd397c4ad5215e&i=4")
    by (vm_compute; reflexivity).
  split; [exact H1|]. split; [exact H2|].
  rewrite H1, H2. discriminate.
Qed.

Lemma verify_notify_accepts_digest_witness :
  Full.verify_notify ascii_only_lower client (Full.ascii_str "100.00")
    [111; 114; 100; 101; 114; 45; 233]
    (Full.ascii_str "0343AC024C3DEA62DED8917096CCBE1D") = Ok true.
Proof.
  destruct (verify_notify_accepts_digest ascii_only_lower client
              (Full.ascii_str "100.00") [111; 114; 100; 101; 114; 45; 233]
              "100.00" _ ascii_only_lower_facts eq_refl eq_refl) as [_ H].
  exact H.
Defined.

Lemma api_create_order_posts_at_most_once_witness :
  Full.api_create_order string raw_loads
    (fixed_transport (Ok (mkResponse 200 "{}"))) Full.ROUND_HALF_EVEN client
    1 4 (Full.ascii_str "a@b.c") (Full.ascii_str "127.0.0.1") [56320]
    (Full.Finite (mkDecimal false 10000 (-2))) (Full.ascii_str "RUB") []
  = (Raise UnicodeEncodeError, []) /\
  List.length
    (snd (Full.api_create_order string raw_loads
            (fixed_transport (Ok (mkResponse 200 "{}")))
            Full.ROUND_HALF_EVEN client 1 4 (Full.ascii_str "a@b.c")
            (Full.ascii_str "127.0.0.1") (Full.ascii_str "order-1")
            (Full.Finite (mkDecimal false 10000 (-2))) (Full.ascii_str "RUB")
            [])) = 1%nat.
Proof.
  destruct (api_create_order_posts_at_most_once string raw_loads
              (fixed_transport (Ok (mkResponse 200 "{}")))
              Full.ROUND_HALF_EVEN client "962c879ce9be06f9d34a556872869220"
              1 4 (Full.ascii_str "a@b.c") (Full.ascii_str "127.0.0.1")
              [56320] (Full.Finite (mkDecimal false 10000 (-2)))
              (Full.ascii_str "RUB") [] eq_refl eq_refl) as [_ Hraise].
  destruct (api_create_order_posts_at_most_once string raw_loads
              (fixed_transport (Ok (mkResponse 200 "{}")))
              Full.ROUND_HALF_EVEN client "962c879ce9be06f9d34a556872869220"
              1 4 (Full.ascii_str "a@b.c") (Full.ascii_str "127.0.0.1")
              (Full.ascii_str "order-1")
              (Full.Finite (mkDecimal false 10000 (-2)))
              (Full.ascii_str "RUB") [] eq_refl eq_refl) as [Hok _].
  split.
  - apply Hraise. right. right. left. reflexivity.
  - destruct (Hok eq_refl eq_refl eq_refl eq_refl) as (rq & -> & _).
    reflexivity.
Defined.

Lemma format_2f_below_half_cent_witness :
  Full.format_2f_in Full.ROUND_HALF_EVEN
    (Full.Finite (mkDecimal true 5 (-3))) = "-0.00".
Proof.
  apply (format_2f_below_half_cent (mkDecimal true 5 (-3))); simpl; lia.
Defined.

End FullWitnesses.
